(** * Host facts on Windows: the fact aggregator and the growing-buffer caller

    A shallow embedding of [providers/windows/host_windows.go]: the host
    handle ([Info], [CPUTime], [Memory]), the aggregator [newHost] with its
    [reader], and [getComputerNameEx], the loop that fetches the computer
    name into a buffer that grows when the system asks for more room.

    The system and the collaborating query functions are parameters
    (a [Platform]); Go's mutation through the pointers [h] and [r] is
    explicit state passing; a run-time panic is an outcome of its own. *)

From Stdlib Require Import ZArith List String Ascii Bool Lia Sorted.
From Equations Require Import Equations.
Import ListNotations.
Local Open Scope Z_scope.

(** ** Machine integers *)

Definition uint16 (z : Z) : Z := z mod 2 ^ 16.
Definition uint32 (z : Z) : Z := z mod 2 ^ 32.
Definition uint64 (z : Z) : Z := z mod 2 ^ 64.

(** ** Errors

    An error value is described by how it was built.  The sentinel of
    package [types], a [syscall.Errno], the result of [errors.New] (also
    what [fmt.Errorf] gives when no operand is wrapped), and the result of
    [fmt.Errorf format arg] with one error operand. *)

Inductive error : Type :=
| ErrNotImplemented
| Errno (code : Z)
| errorString (text : string)
| Errorf (format : string) (arg : error).

Definition ERROR_MORE_DATA : error := Errno 234.

(** The characters that may stand between [%] and the verb of a
    directive: flags, width, precision and argument index. *)
Definition directive_char (c : ascii) : bool :=
  existsb (Ascii.eqb c) (list_ascii_of_string "#0+- 123456789.*[]").

(** Reading a format: [in_directive] tells whether a [%] was read and
    its verb is still to come.  [%%] is a percent sign and takes no
    operand; the first other verb is the one the operand goes to. *)
Fixpoint first_verb_is_w (in_directive : bool) (format : string) : bool :=
  match format with
  | EmptyString => false
  | String c rest =>
    if in_directive then
      if directive_char c then first_verb_is_w true rest
      else if Ascii.eqb c "%" then first_verb_is_w false rest
      else Ascii.eqb c "w"
    else first_verb_is_w (Ascii.eqb c "%") rest
  end.

(** [fmt.Errorf] with one operand keeps it reachable through [Unwrap]
    only when the verb the operand goes to is [%w]; with [%s] only the
    text is kept.  (An explicit argument index and a [*] width, which
    change the directive an operand goes to, are not interpreted.) *)
Definition wraps (format : string) : bool := first_verb_is_w false format.

(** The targets the code compares with: the sentinel of package [types]
    and the values of [syscall.Errno]. *)
Definition sentinel (target : error) : Prop :=
  match target with
  | ErrNotImplemented | Errno _ => True
  | _ => False
  end.

(** [err == target], for a [sentinel] target.  Values built by
    [errors.New] and [fmt.Errorf] are fresh pointers: they are identical
    to no sentinel and to no [Errno].  Their identity is not modelled, so
    that nothing is said of a target that is such a value itself (in Go
    it is identical to itself and to nothing else). *)
Definition same (err target : error) : bool :=
  match err, target with
  | ErrNotImplemented, ErrNotImplemented => true
  | Errno a, Errno b => a =? b
  | _, _ => false
  end.

(** [errors.Is] for a [sentinel] target: follow the [Unwrap] chain until
    a link is the target. *)
Fixpoint errors_Is (err target : error) : bool :=
  same err target ||
  match err with
  | Errorf format arg => wraps format && errors_Is arg target
  | _ => false
  end.

(** [&multierror.MultiError{Errors: errs}] *)
Record MultiError : Type := { Errors : list error }.

(** ** Strings *)

(** [strings.HasSuffix] *)
Definition HasSuffix (s suffix : string) : bool :=
  (String.length suffix <=? String.length s)%nat &&
  String.eqb
    (substring (String.length s - String.length suffix) (String.length suffix) s)
    suffix.

(** [strings.TrimSuffix] *)
Definition TrimSuffix (s suffix : string) : string :=
  if HasSuffix s suffix
  then substring 0 (String.length s - String.length suffix) s
  else s.

(** ** UTF-16 to string ([syscall.UTF16ToString])

    The function is part of Go's library.  It is written out as the
    current library has it: the units before the first NUL are decoded,
    and a surrogate without its pair is kept, in three bytes (WTF-8). *)

Definition surr1 : Z := 0xd800.
Definition surr2 : Z := 0xdc00.
Definition surr3 : Z := 0xe000.
Definition surrSelf : Z := 0x10000.
Definition MaxRune : Z := 0x10ffff.
Definition RuneError : Z := 0xfffd.

(** [utf16.DecodeRune] on a valid surrogate pair *)
Definition DecodeRune (r1 r2 : Z) : Z :=
  Z.lor (Z.shiftl (r1 - surr1) 10) (r2 - surr2) + surrSelf.

(** The conversion [byte(x)]. *)
Definition byte_of (z : Z) : Z := z mod 256.

Definition three_bytes (r : Z) : list Z :=
  [Z.lor 0xe0 (byte_of (Z.shiftr r 12));
   Z.lor 0x80 (Z.land (byte_of (Z.shiftr r 6)) 0x3f);
   Z.lor 0x80 (Z.land (byte_of r) 0x3f)].

(** [utf8.AppendRune], the bytes appended: a surrogate or a value beyond
    [MaxRune] is written as [RuneError]. *)
Definition AppendRune (r : Z) : list Z :=
  if r <=? 0x7f then [byte_of r]
  else if r <=? 0x7ff then
    [Z.lor 0xc0 (byte_of (Z.shiftr r 6));
     Z.lor 0x80 (Z.land (byte_of r) 0x3f)]
  else if (MaxRune <? r) || ((surr1 <=? r) && (r <? surr3)) then
    three_bytes RuneError
  else if r <=? 0xffff then three_bytes r
  else
    [Z.lor 0xf0 (byte_of (Z.shiftr r 18));
     Z.lor 0x80 (Z.land (byte_of (Z.shiftr r 12)) 0x3f);
     Z.lor 0x80 (Z.land (byte_of (Z.shiftr r 6)) 0x3f);
     Z.lor 0x80 (Z.land (byte_of r) 0x3f)].

(** [decodeWTF16]: a unit outside the surrogate range is a rune, a high
    surrogate followed by a low one is one rune, and any other surrogate
    is written in three bytes as it is. *)
Fixpoint decodeWTF16 (s : list Z) : list Z :=
  match s with
  | [] => []
  | r :: rest =>
    if (r <? surr1) || (surr3 <=? r) then AppendRune r ++ decodeWTF16 rest
    else
      match rest with
      | r2 :: rest' =>
        if (r <? surr2) && (surr2 <=? r2) && (r2 <? surr3)
        then AppendRune (DecodeRune r r2) ++ decodeWTF16 rest'
        else three_bytes r ++ decodeWTF16 rest
      | [] => three_bytes r
      end
  end.

(** The units before the first NUL. *)
Fixpoint untilNUL (s : list Z) : list Z :=
  match s with
  | [] => []
  | v :: rest => if v =? 0 then [] else v :: untilNUL rest
  end.

Definition string_of_bytes (bs : list Z) : string :=
  string_of_list_ascii (map (fun b => ascii_of_N (Z.to_N b)) bs).

Definition UTF16ToString (s : list Z) : string :=
  string_of_bytes (decodeWTF16 (untilNUL s)).

(** The UTF-16 units of a string of ASCII characters (used to build
    simulated systems). *)
Definition units_of (s : string) : list Z :=
  map (fun c => Z.of_N (N_of_ascii c)) (list_ascii_of_string s).

(** ** The data model (package [types]) *)

(** Modelled from the spec: the declaration of [types.OSInfo] is not part
    of this file; the spec gives a descriptor with name, version and
    build. *)
Record OSInfo : Type := {
  Name : string;
  Version : string;
  Build : string
}.

(** Modelled from the spec: the declaration of [types.HostInfo] is not
    part of this file; the fields are those of the spec's host-facts table,
    which are the ones the aggregator assigns.  A [time.Time] is an
    instant counted from the zero time, [*types.OSInfo] is an [option]. *)
Record HostInfo : Type := {
  Architecture : string;
  BootTime : Z;
  Hostname : string;
  FQDN : string;
  IPs : list string;
  MACs : list string;
  KernelVersion : string;
  OS : option OSInfo;
  Timezone : string;
  TimezoneOffsetSec : Z;
  UniqueID : string
}.

(** The zero value [types.HostInfo{}]. *)
Definition zeroHostInfo : HostInfo := {|
  Architecture := ""; BootTime := 0; Hostname := ""; FQDN := "";
  IPs := []; MACs := []; KernelVersion := ""; OS := None;
  Timezone := ""; TimezoneOffsetSec := 0; UniqueID := ""
|}.

(** Modelled from the spec: the declaration of [types.CPUTimes] is not
    part of this file; three accumulated durations. *)
Record CPUTimes : Type := {
  System : Z;
  User : Z;
  Idle : Z
}.

Definition zeroCPUTimes : CPUTimes := {| System := 0; User := 0; Idle := 0 |}.

(** Modelled from the spec: the declaration of [types.HostMemoryInfo] is
    not part of this file; seven byte counts, each a [uint64]. *)
Record HostMemoryInfo : Type := {
  Total : Z;
  Used : Z;
  Free : Z;
  Available : Z;
  VirtualTotal : Z;
  VirtualUsed : Z;
  VirtualFree : Z
}.

(** The fields of [windows.MemoryStatusEx] that [Memory] reads; the
    declaration is in package [go-windows]. *)
Record MemoryStatusEx : Type := {
  TotalPhys : Z;
  AvailPhys : Z;
  TotalPageFile : Z;
  AvailPageFile : Z
}.

(** ** The platform *)

(** What one call of [stdwindows.GetComputerNameEx(name, &buff[0], &size)]
    leaves behind: the units it stored from [buff[0]] on, the value it
    left in [size], and the error it returned. *)
Record Reply : Type := {
  lpBuffer : list Z;
  nSize : Z;
  callErr : option error
}.

(** Everything [host_windows.go] calls and does not define.  A query that
    [newHost] invokes exactly once is given by what it returned, value and
    error as Go returns them.  The three system calls that are invoked
    again and again take and give back the state of the system, so that
    any sequence of answers can be described.  The functions
    [Architecture], [BootTime], [KernelVersion], [OperatingSystem] and
    [MachineID] of the package carry the prefix [query_] here: most of
    their names are those of fields of [HostInfo]. *)
Record Platform : Type := {
  SystemState : Type;
  query_Architecture : string * option error;
  query_BootTime : Z * option error;
  os_Hostname : string * option error;
  shared_Network : list string * list string * option error;
  query_KernelVersion : string * option error;
  query_OperatingSystem : option OSInfo * option error;
  time_Now_Zone : string * Z;
  query_MachineID : string * option error;
  GetComputerNameEx : Z -> Z -> SystemState -> Reply * SystemState;
  GetSystemTimes : SystemState -> (Z * Z * Z * option error) * SystemState;
  GlobalMemoryStatusEx :
    SystemState -> (MemoryStatusEx * option error) * SystemState
}.

(** The state of the system together with the log of the buffer lengths
    that were handed to [GetComputerNameEx], oldest first. *)
Record World (p : Platform) : Type := {
  sys : SystemState p;
  calls : list Z
}.
Arguments sys {p} _.
Arguments calls {p} _.

(** A Go call either returns or panics. *)
Inductive outcome (A : Type) : Type :=
| Returns (a : A)
| Panics.
Arguments Returns {A} a.
Arguments Panics {A}.

(** ** The growing-buffer caller *)

Definition ComputerNamePhysicalDnsFullyQualified : Z := 7.

(** [buff] after the call: [make([]uint16, size)], zeroed, with the units
    the system stored at its start; nothing is kept beyond its length. *)
Definition store (size : Z) (written : list Z) : list Z :=
  firstn (Z.to_nat size)
         (map uint16 written ++ repeat 0 (Z.to_nat size - List.length written)).

(** One call of the system, logged. *)
Definition invoke (p : Platform) (name size : Z) (w : World p)
  : Reply * World p :=
  let (reply, s) := GetComputerNameEx p name size (sys w) in
  (reply, {| sys := s; calls := calls w ++ [size] |}).

Definition errFits : error :=
  errorString
    "windows.GetComputerNameEx returned ERROR_MORE_DATA, but data size should fit into buffer".

Definition errOther (err : error) : error :=
  Errorf
    "could not get windows FQDN: could not get windows.ComputerNamePhysicalDnsFullyQualified: %w"
    err.

(** How far a [uint32] size is from the end of its range. *)
Definition room (size : Z) : nat := Z.to_nat (2 ^ 32 - size).
#[global] Opaque room.

(** The [for] loop of [getComputerNameEx], entered with [size].  The
    index expression [&buff[0]] panics on an empty buffer and the slice
    expression [buff[:size]] panics when [size] exceeds the capacity.
    A retry happens only with a strictly larger 32-bit size, hence the
    measure. *)
Equations? getComputerNameEx_loop (p : Platform) (name size : Z) (w : World p)
  : outcome (string * option error) * World p
  by wf (room size) lt :=
getComputerNameEx_loop p name size w :=
  if size =? 0 then (Panics, w) else
  let rw := invoke p name size w in
  let buff := store size (lpBuffer (fst rw)) in
  let size' := uint32 (nSize (fst rw)) in
  match callErr (fst rw) with
  | None =>
    if size' <=? size
    then (Returns (UTF16ToString (firstn (Z.to_nat size') buff), None), snd rw)
    else (Panics, snd rw)
  | Some err =>
    if errors_Is err ERROR_MORE_DATA then
      match Z_le_gt_dec size' size with
      | left _ => (Returns (""%string, Some errFits), snd rw)
      | right _ => getComputerNameEx_loop p name size' (snd rw)
      end
    else (Returns (""%string, Some (errOther err)), snd rw)
  end.
Proof.
  with_strategy transparent [room] (unfold room).
  assert (0 <= size' < 2 ^ 32) by (apply Z.mod_pos_bound; lia).
  lia.
Qed.

Definition getComputerNameEx (p : Platform) (name : Z) (w : World p)
  : outcome (string * option error) * World p :=
  getComputerNameEx_loop p name 64 w.

(** ** The host handle *)

Record host : Type := { info : HostInfo }.

Definition Info (h : host) : HostInfo := info h.

(** The methods have pointer receivers: each gives back the handle as it
    leaves it, next to what it returns. *)
Definition CPUTime (p : Platform) (h : host) (w : World p)
  : (CPUTimes * option error) * host * World p :=
  let '((idle, kernel, user, err), s) := GetSystemTimes p (sys w) in
  let w' := {| sys := s; calls := calls w |} in
  match err with
  | Some e => ((zeroCPUTimes, Some e), h, w')
  | None => (({| System := kernel; User := user; Idle := idle |}, None), h, w')
  end.

Definition Memory (p : Platform) (h : host) (w : World p)
  : (option HostMemoryInfo * option error) * host * World p :=
  let '((mem, err), s) := GlobalMemoryStatusEx p (sys w) in
  let w' := {| sys := s; calls := calls w |} in
  match err with
  | Some e => ((None, Some e), h, w')
  | None =>
    ((Some {| Total := TotalPhys mem;
              Used := uint64 (TotalPhys mem - AvailPhys mem);
              Free := AvailPhys mem;
              Available := AvailPhys mem;
              VirtualTotal := TotalPageFile mem;
              VirtualUsed := uint64 (TotalPageFile mem - AvailPageFile mem);
              VirtualFree := AvailPageFile mem |}, None), h, w')
  end.

(** ** The reader *)

Record reader : Type := { errs : list error }.

Definition addErr (r : reader) (err : option error) : reader * bool :=
  match err with
  | Some e =>
    if negb (errors_Is e ErrNotImplemented)
    then ({| errs := errs r ++ [e] |}, true)
    else (r, true)
  | None => (r, false)
  end.

Definition Err (r : reader) : option MultiError :=
  if (0 <? List.length (errs r))%nat
  then Some {| Errors := errs r |}
  else None.

(** Field assignments [h.info.X = v]. *)
Definition set_Architecture (v : string) (i : HostInfo) : HostInfo :=
  {| Architecture := v; BootTime := BootTime i; Hostname := Hostname i;
     FQDN := FQDN i; IPs := IPs i; MACs := MACs i;
     KernelVersion := KernelVersion i; OS := OS i; Timezone := Timezone i;
     TimezoneOffsetSec := TimezoneOffsetSec i; UniqueID := UniqueID i |}.

Definition set_BootTime (v : Z) (i : HostInfo) : HostInfo :=
  {| Architecture := Architecture i; BootTime := v; Hostname := Hostname i;
     FQDN := FQDN i; IPs := IPs i; MACs := MACs i;
     KernelVersion := KernelVersion i; OS := OS i; Timezone := Timezone i;
     TimezoneOffsetSec := TimezoneOffsetSec i; UniqueID := UniqueID i |}.

Definition set_Hostname (v : string) (i : HostInfo) : HostInfo :=
  {| Architecture := Architecture i; BootTime := BootTime i; Hostname := v;
     FQDN := FQDN i; IPs := IPs i; MACs := MACs i;
     KernelVersion := KernelVersion i; OS := OS i; Timezone := Timezone i;
     TimezoneOffsetSec := TimezoneOffsetSec i; UniqueID := UniqueID i |}.

Definition set_FQDN (v : string) (i : HostInfo) : HostInfo :=
  {| Architecture := Architecture i; BootTime := BootTime i;
     Hostname := Hostname i; FQDN := v; IPs := IPs i; MACs := MACs i;
     KernelVersion := KernelVersion i; OS := OS i; Timezone := Timezone i;
     TimezoneOffsetSec := TimezoneOffsetSec i; UniqueID := UniqueID i |}.

Definition set_IPs (v : list string) (i : HostInfo) : HostInfo :=
  {| Architecture := Architecture i; BootTime := BootTime i;
     Hostname := Hostname i; FQDN := FQDN i; IPs := v; MACs := MACs i;
     KernelVersion := KernelVersion i; OS := OS i; Timezone := Timezone i;
     TimezoneOffsetSec := TimezoneOffsetSec i; UniqueID := UniqueID i |}.

Definition set_MACs (v : list string) (i : HostInfo) : HostInfo :=
  {| Architecture := Architecture i; BootTime := BootTime i;
     Hostname := Hostname i; FQDN := FQDN i; IPs := IPs i; MACs := v;
     KernelVersion := KernelVersion i; OS := OS i; Timezone := Timezone i;
     TimezoneOffsetSec := TimezoneOffsetSec i; UniqueID := UniqueID i |}.

Definition set_KernelVersion (v : string) (i : HostInfo) : HostInfo :=
  {| Architecture := Architecture i; BootTime := BootTime i;
     Hostname := Hostname i; FQDN := FQDN i; IPs := IPs i; MACs := MACs i;
     KernelVersion := v; OS := OS i; Timezone := Timezone i;
     TimezoneOffsetSec := TimezoneOffsetSec i; UniqueID := UniqueID i |}.

Definition set_OS (v : option OSInfo) (i : HostInfo) : HostInfo :=
  {| Architecture := Architecture i; BootTime := BootTime i;
     Hostname := Hostname i; FQDN := FQDN i; IPs := IPs i; MACs := MACs i;
     KernelVersion := KernelVersion i; OS := v; Timezone := Timezone i;
     TimezoneOffsetSec := TimezoneOffsetSec i; UniqueID := UniqueID i |}.

Definition set_Timezone (v : string) (i : HostInfo) : HostInfo :=
  {| Architecture := Architecture i; BootTime := BootTime i;
     Hostname := Hostname i; FQDN := FQDN i; IPs := IPs i; MACs := MACs i;
     KernelVersion := KernelVersion i; OS := OS i; Timezone := v;
     TimezoneOffsetSec := TimezoneOffsetSec i; UniqueID := UniqueID i |}.

Definition set_TimezoneOffsetSec (v : Z) (i : HostInfo) : HostInfo :=
  {| Architecture := Architecture i; BootTime := BootTime i;
     Hostname := Hostname i; FQDN := FQDN i; IPs := IPs i; MACs := MACs i;
     KernelVersion := KernelVersion i; OS := OS i; Timezone := Timezone i;
     TimezoneOffsetSec := v; UniqueID := UniqueID i |}.

Definition set_UniqueID (v : string) (i : HostInfo) : HostInfo :=
  {| Architecture := Architecture i; BootTime := BootTime i;
     Hostname := Hostname i; FQDN := FQDN i; IPs := IPs i; MACs := MACs i;
     KernelVersion := KernelVersion i; OS := OS i; Timezone := Timezone i;
     TimezoneOffsetSec := TimezoneOffsetSec i; UniqueID := v |}.

(** The steps of the reader.  Each takes the reader and the handle and
    gives both back. *)
Definition architecture (p : Platform) (r : reader) (h : host) : reader * host :=
  let (v, err) := query_Architecture p in
  let (r, failed) := addErr r err in
  if failed then (r, h)
  else (r, {| info := set_Architecture v (info h) |}).

Definition bootTime (p : Platform) (r : reader) (h : host) : reader * host :=
  let (v, err) := query_BootTime p in
  let (r, failed) := addErr r err in
  if failed then (r, h)
  else (r, {| info := set_BootTime v (info h) |}).

Definition hostname (p : Platform) (r : reader) (h : host) : reader * host :=
  let (v, err) := os_Hostname p in
  let (r, failed) := addErr r err in
  if failed then (r, h)
  else (r, {| info := set_Hostname v (info h) |}).

Definition errFQDN (err : error) : error :=
  Errorf "could not get windows FQDN: %s" err.

Definition fqdn (p : Platform) (r : reader) (h : host) (w : World p)
  : outcome (reader * host) * World p :=
  match getComputerNameEx p ComputerNamePhysicalDnsFullyQualified w with
  | (Panics, w') => (Panics, w')
  | (Returns (_, Some err), w') =>
    (Returns (fst (addErr r (Some (errFQDN err))), h), w')
  | (Returns (name, None), w') =>
    (Returns (r, {| info := set_FQDN (TrimSuffix name ".") (info h) |}), w')
  end.

Definition network (p : Platform) (r : reader) (h : host) : reader * host :=
  let '(ips, macs, err) := shared_Network p in
  let (r, failed) := addErr r err in
  if failed then (r, h)
  else (r, {| info := set_MACs macs (set_IPs ips (info h)) |}).

Definition kernelVersion (p : Platform) (r : reader) (h : host) : reader * host :=
  let (v, err) := query_KernelVersion p in
  let (r, failed) := addErr r err in
  if failed then (r, h)
  else (r, {| info := set_KernelVersion v (info h) |}).

Definition os (p : Platform) (r : reader) (h : host) : reader * host :=
  let (v, err) := query_OperatingSystem p in
  let (r, failed) := addErr r err in
  if failed then (r, h)
  else (r, {| info := set_OS v (info h) |}).

Definition time (p : Platform) (r : reader) (h : host) : reader * host :=
  let (name, offset) := time_Now_Zone p in
  (r, {| info := set_TimezoneOffsetSec offset (set_Timezone name (info h)) |}).

Definition uniqueID (p : Platform) (r : reader) (h : host) : reader * host :=
  let (v, err) := query_MachineID p in
  let (r, failed) := addErr r err in
  if failed then (r, h)
  else (r, {| info := set_UniqueID v (info h) |}).

(** ** The aggregator *)

Definition newHost (p : Platform) (w : World p)
  : outcome (host * option MultiError) * World p :=
  let h := {| info := zeroHostInfo |} in
  let r := {| errs := [] |} in
  let (r, h) := architecture p r h in
  let (r, h) := bootTime p r h in
  let (r, h) := hostname p r h in
  match fqdn p r h w with
  | (Panics, w') => (Panics, w')
  | (Returns (r, h), w') =>
    let (r, h) := network p r h in
    let (r, h) := kernelVersion p r h in
    let (r, h) := os p r h in
    let (r, h) := time p r h in
    let (r, h) := uniqueID p r h in
    (Returns (h, Err r), w')
  end.

(** ** Using a handle *)

Inductive method : Type := CallInfo | CallCPUTime | CallMemory.

Inductive response : Type :=
| InfoIs (i : HostInfo)
| CPUTimeIs (t : CPUTimes) (err : option error)
| MemoryIs (m : option HostMemoryInfo) (err : option error).

Definition call (p : Platform) (m : method) (h : host) (w : World p)
  : response * host * World p :=
  match m with
  | CallInfo => (InfoIs (Info h), h, w)
  | CallCPUTime =>
    let '((t, err), h', w') := CPUTime p h w in (CPUTimeIs t err, h', w')
  | CallMemory =>
    let '((m, err), h', w') := Memory p h w in (MemoryIs m err, h', w')
  end.

(** Any sequence of calls on one handle, each on the handle and the world
    the one before left. *)
Fixpoint session (p : Platform) (ms : list method) (h : host) (w : World p)
  : list response * host * World p :=
  match ms with
  | [] => ([], h, w)
  | m :: rest =>
    let '(x, h1, w1) := call p m h w in
    let '(xs, h2, w2) := session p rest h1 w1 in
    (x :: xs, h2, w2)
  end.

(** ** Notions the properties are stated with *)

(** The three ways a run of [getComputerNameEx] ends: with a string and no
    error, with the empty string and an error, or in a panic. *)
Inductive ending : outcome (string * option error) -> Prop :=
| ends_with_value (s : string) : ending (Returns (s, None))
| ends_with_error (e : error) : ending (Returns (""%string, Some e))
| ends_in_panic : ending Panics.

(** The iterations of the loop of [getComputerNameEx] started in [w0]:
    it begins one with [size] in world [w]. *)
Inductive iterates (p : Platform) (name : Z) (w0 : World p)
  : Z -> World p -> Prop :=
| iterates_first : iterates p name w0 64 w0
| iterates_retry size w reply w' e :
    iterates p name w0 size w ->
    invoke p name size w = (reply, w') ->
    callErr reply = Some e ->
    errors_Is e ERROR_MORE_DATA = true ->
    uint32 (nSize reply) > size ->
    iterates p name w0 (uint32 (nSize reply)) w'.

(** A well-behaved system holding the name [text], for which it wants [S]
    units: with fewer it fails with ERROR_MORE_DATA and reports [S]; with
    [S] or more it succeeds, stores the name and reports its length. *)
Definition well_behaved (p : Platform) (name S : Z) (text : list Z) : Prop :=
  Z.of_nat (List.length text) <= S /\
  (forall s n, 0 < n < S ->
     let r := fst (GetComputerNameEx p name n s) in
     (exists e, callErr r = Some e /\ errors_Is e ERROR_MORE_DATA = true) /\
     uint32 (nSize r) = S) /\
  (forall s n, S <= n < 2 ^ 32 ->
     let r := fst (GetComputerNameEx p name n s) in
     callErr r = None /\
     uint32 (nSize r) = Z.of_nat (List.length text) /\
     firstn (List.length text) (store n (lpBuffer r)) = text).

(** The least [k] with [initial * 2 ^ k >= S], that is the ceiling of
    [log2 (S / initial)]. *)
Definition ceil_log2_ratio (S initial : Z) : Z :=
  Z.log2_up ((S + initial - 1) / initial).

(** The errors a query contributes to the set [F]: its error, unless it
    is nil or is NotImplemented. *)
Definition failure (err : option error) : list error :=
  match err with
  | Some e => if errors_Is e ErrNotImplemented then [] else [e]
  | None => []
  end.

(** The value a field holds after its query: the value returned, or the
    zero value when the query failed. *)
Definition populated {A : Type} (zero : A) (q : A * option error) : A :=
  match snd q with
  | None => fst q
  | Some _ => zero
  end.

(** What a step leaves in a field: the value of a query that succeeded. *)
Definition assign {A : Type} (set : A -> HostInfo -> HostInfo)
    (q : A * option error) (i : HostInfo) : HostInfo :=
  match snd q with
  | None => set (fst q) i
  | Some _ => i
  end.

(** The combined error over a list of errors. *)
Definition combined (l : list error) : option MultiError :=
  match l with
  | [] => None
  | _ :: _ => Some {| Errors := l |}
  end.

(** What the FQDN step appends for the error of its query. *)
Definition reformatted (ferr : option error) : list error :=
  match ferr with
  | Some e => [errFQDN e]
  | None => []
  end.

(** The errors of the failing queries in the order of invocation; [fq] is
    what the FQDN query contributes. *)
Definition failures_with (p : Platform) (fq : list error) : list error :=
  failure (snd (query_Architecture p)) ++
  failure (snd (query_BootTime p)) ++
  failure (snd (os_Hostname p)) ++
  fq ++
  failure (snd (shared_Network p)) ++
  failure (snd (query_KernelVersion p)) ++
  failure (snd (query_OperatingSystem p)) ++
  failure (snd (query_MachineID p)).

(** The fields other than FQDN after a run: each holds what its query
    returned, or its zero value. *)
Definition facts_populated (p : Platform) (i : HostInfo) : Prop :=
  Architecture i = populated ""%string (query_Architecture p) /\
  BootTime i = populated 0 (query_BootTime p) /\
  Hostname i = populated ""%string (os_Hostname p) /\
  IPs i = populated [] (fst (fst (shared_Network p)), snd (shared_Network p)) /\
  MACs i = populated [] (snd (fst (shared_Network p)), snd (shared_Network p)) /\
  KernelVersion i = populated ""%string (query_KernelVersion p) /\
  OS i = populated None (query_OperatingSystem p) /\
  Timezone i = fst (time_Now_Zone p) /\
  TimezoneOffsetSec i = snd (time_Now_Zone p) /\
  UniqueID i = populated ""%string (query_MachineID p).

(** Partial tolerance, read literally: whenever the FQDN query returns
    [(name, ferr)], the handle is returned, every field holds the value
    its query returned or its zero value, and the combined error lists
    exactly the errors of the failing queries. *)
Definition partial_tolerance_as_claimed (p : Platform) (w : World p) : Prop :=
  forall name ferr w',
    getComputerNameEx p ComputerNamePhysicalDnsFullyQualified w
      = (Returns (name, ferr), w') ->
    exists h,
      newHost p w = (Returns (h, combined (failures_with p (failure ferr))), w') /\
      facts_populated p (info h) /\
      FQDN (info h) = populated ""%string (name, ferr).

(** How the last call of a run decides what [getComputerNameEx] gives:
    [n] is the length of the buffer that call was given. *)
Inductive last_call (n : Z) (reply : Reply)
  : outcome (string * option error) -> Prop :=
| last_success :
    callErr reply = None ->
    uint32 (nSize reply) <= n ->
    last_call n reply
      (Returns (UTF16ToString (firstn (Z.to_nat (uint32 (nSize reply)))
                                      (store n (lpBuffer reply))), None))
| last_overrun :
    callErr reply = None ->
    uint32 (nSize reply) > n ->
    last_call n reply Panics
| last_guard e :
    callErr reply = Some e ->
    errors_Is e ERROR_MORE_DATA = true ->
    uint32 (nSize reply) <= n ->
    last_call n reply (Returns (""%string, Some errFits))
| last_other e :
    callErr reply = Some e ->
    errors_Is e ERROR_MORE_DATA = false ->
    last_call n reply (Returns (""%string, Some (errOther e))).

(** An error the reader does not record: nil, or NotImplemented. *)
Definition tolerated (err : option error) : Prop :=
  forall x, err = Some x -> errors_Is x ErrNotImplemented = true.

(** The errors of the seven queries whose steps hand them to [addErr]. *)
Definition plain_errors (p : Platform) : list (option error) :=
  [snd (query_Architecture p); snd (query_BootTime p); snd (os_Hostname p);
   snd (shared_Network p); snd (query_KernelVersion p);
   snd (query_OperatingSystem p); snd (query_MachineID p)].

(** A name made of ASCII characters other than NUL. *)
Definition ascii_name (s : string) : Prop :=
  Forall (fun c => (0 < N_of_ascii c < 128)%N) (list_ascii_of_string s).

(** The system call as package [windows] of [golang.org/x/sys] declares
    it: the only errors it returns are values of [syscall.Errno]. *)
Definition errno_only (p : Platform) : Prop :=
  forall name size s e,
    callErr (fst (GetComputerNameEx p name size s)) = Some e ->
    exists code, e = Errno code.

(** A query that failed with an error that is NotImplemented. *)
Definition unimplemented (err : option error) : Prop :=
  exists x, err = Some x /\ errors_Is x ErrNotImplemented = true.

(** The fields of the queries that are not implemented are at their zero
    values. *)
Definition suppressed_fields (p : Platform) (i : HostInfo) : Prop :=
  (unimplemented (snd (query_Architecture p)) -> Architecture i = ""%string) /\
  (unimplemented (snd (query_BootTime p)) -> BootTime i = 0) /\
  (unimplemented (snd (os_Hostname p)) -> Hostname i = ""%string) /\
  (unimplemented (snd (shared_Network p)) -> IPs i = [] /\ MACs i = []) /\
  (unimplemented (snd (query_KernelVersion p)) ->
   KernelVersion i = ""%string) /\
  (unimplemented (snd (query_OperatingSystem p)) -> OS i = None) /\
  (unimplemented (snd (query_MachineID p)) -> UniqueID i = ""%string).

(** ** Simulated systems *)

(** A system that answers from a script, one reply per call, and fails
    with error 5 once the script is used up. *)
Definition scripted_call (name size : Z) (s : list Reply) : Reply * list Reply :=
  match s with
  | [] => ({| lpBuffer := []; nSize := size; callErr := Some (Errno 5) |}, [])
  | r :: rest => (r, rest)
  end.

(** A system that holds [text] and follows the protocol: it wants room
    for the name and its terminating NUL. *)
Definition protocol_call (text : list Z) (name size : Z) (s : unit)
  : Reply * unit :=
  if size <? Z.of_nat (List.length text) + 1
  then ({| lpBuffer := []; nSize := Z.of_nat (List.length text) + 1;
           callErr := Some ERROR_MORE_DATA |}, s)
  else ({| lpBuffer := text ++ [0]; nSize := Z.of_nat (List.length text);
           callErr := None |}, s).

Definition GiB : Z := 2 ^ 30.

(** A platform on which every query succeeds, over a given system call. *)
Definition healthy (S : Type) (f : Z -> Z -> S -> Reply * S) : Platform := {|
  SystemState := S;
  query_Architecture := ("x86_64"%string, None);
  query_BootTime := (63800000000, None);
  os_Hostname := ("host1"%string, None);
  shared_Network := (["192.0.2.7"%string], ["00:00:5e:00:53:07"%string], None);
  query_KernelVersion := ("10.0.19041.1 (WinBuild.160101.0800)"%string, None);
  query_OperatingSystem :=
    (Some {| Name := "Windows 10 Pro"; Version := "10.0"; Build := "19045.1" |},
     None);
  time_Now_Zone := ("CET"%string, 3600);
  query_MachineID := ("7a3c9f0e-5b1d-4c62-9a54-0d2f6b8e1c33"%string, None);
  GetComputerNameEx := f;
  GetSystemTimes := fun s => ((500, 20, 30, None), s);
  GlobalMemoryStatusEx := fun s =>
    (({| TotalPhys := 16 * GiB; AvailPhys := 4 * GiB;
         TotalPageFile := 24 * GiB; AvailPageFile := 9 * GiB |}, None), s)
|}.

(** A platform on which several queries fail: boot time and machine id
    with errors of their own, the kernel version with NotImplemented. *)
Definition patchy (S : Type) (f : Z -> Z -> S -> Reply * S) : Platform := {|
  SystemState := S;
  query_Architecture := ("x86_64"%string, None);
  query_BootTime := (0, Some (Errno 31));
  os_Hostname := ("host1"%string, None);
  shared_Network := (["192.0.2.7"%string], ["00:00:5e:00:53:07"%string], None);
  query_KernelVersion :=
    (""%string, Some (Errorf "kernel version: %w" ErrNotImplemented));
  query_OperatingSystem :=
    (Some {| Name := "Windows 10 Pro"; Version := "10.0"; Build := "19045.1" |},
     None);
  time_Now_Zone := ("CET"%string, 3600);
  query_MachineID := (""%string, Some (errorString "registry key not found"));
  GetComputerNameEx := f;
  GetSystemTimes := fun s => ((0, 0, 0, Some (Errno 5)), s);
  GlobalMemoryStatusEx := fun s =>
    (({| TotalPhys := 16 * GiB; AvailPhys := 4 * GiB;
         TotalPageFile := 24 * GiB; AvailPageFile := 9 * GiB |}, None), s)
|}.

(** A platform on which the kernel version and the machine id are not
    implemented and every other query succeeds. *)
Definition partly_unimplemented (S : Type) (f : Z -> Z -> S -> Reply * S)
  : Platform := {|
  SystemState := S;
  query_Architecture := ("x86_64"%string, None);
  query_BootTime := (63800000000, None);
  os_Hostname := ("host1"%string, None);
  shared_Network := (["192.0.2.7"%string], ["00:00:5e:00:53:07"%string], None);
  query_KernelVersion :=
    ("unused"%string, Some (Errorf "kernel version: %w" ErrNotImplemented));
  query_OperatingSystem :=
    (Some {| Name := "Windows 10 Pro"; Version := "10.0"; Build := "19045.1" |},
     None);
  time_Now_Zone := ("CET"%string, 3600);
  query_MachineID := (""%string, Some ErrNotImplemented);
  GetComputerNameEx := f;
  GetSystemTimes := fun s => ((500, 20, 30, None), s);
  GlobalMemoryStatusEx := fun s =>
    (({| TotalPhys := 16 * GiB; AvailPhys := 4 * GiB;
         TotalPageFile := 24 * GiB; AvailPageFile := 9 * GiB |}, None), s)
|}.

(** The platform [p] with a memory query that always reports [mem]. *)
Definition with_memory (p : Platform) (mem : MemoryStatusEx) : Platform := {|
  SystemState := SystemState p;
  query_Architecture := query_Architecture p;
  query_BootTime := query_BootTime p;
  os_Hostname := os_Hostname p;
  shared_Network := shared_Network p;
  query_KernelVersion := query_KernelVersion p;
  query_OperatingSystem := query_OperatingSystem p;
  time_Now_Zone := time_Now_Zone p;
  query_MachineID := query_MachineID p;
  GetComputerNameEx := GetComputerNameEx p;
  GetSystemTimes := GetSystemTimes p;
  GlobalMemoryStatusEx := fun s => ((mem, None), s)
|}.

Definition scripted : Platform := healthy (list Reply) scripted_call.
Definition scripted_patchy : Platform := patchy (list Reply) scripted_call.
Definition protocol (text : string) : Platform :=
  healthy unit (protocol_call (units_of text)).

Definition world (p : Platform) (s : SystemState p) (log : list Z) : World p :=
  {| sys := s; calls := log |}.

(** The world before any call. *)
Definition start (p : Platform) (s : SystemState p) : World p := world p s [].

Definition succeeds_with (text : string) : Reply :=
  {| lpBuffer := units_of text ++ [0];
     nSize := Z.of_nat (String.length text);
     callErr := None |}.

(** A success that reports [n] units and stores none. *)
Definition succeeds_reporting (n : Z) : Reply :=
  {| lpBuffer := []; nSize := n; callErr := None |}.

Definition wants (size : Z) : Reply :=
  {| lpBuffer := []; nSize := size; callErr := Some ERROR_MORE_DATA |}.

Definition fails_with (e : error) : Reply :=
  {| lpBuffer := []; nSize := 64; callErr := Some e |}.

Definition long_name : string :=
  "build-agent-0427.continuous-integration.engineering.corp.example.com.".

(** * Properties *)

(** ** Machine integers and errors *)

Lemma uint32_range (z : Z) : 0 <= uint32 z < 2 ^ 32.
Proof. unfold uint32. apply Z.mod_pos_bound. lia. Qed.

Lemma uint32_small (z : Z) : 0 <= z < 2 ^ 32 -> uint32 z = z.
Proof. intros H. unfold uint32. now apply Z.mod_small. Qed.

Lemma room_lt (a b : Z) : a < b -> b < 2 ^ 32 -> (room b < room a)%nat.
Proof. intros. with_strategy transparent [room] (unfold room). lia. Qed.

Lemma room_le (a : Z) (k : nat) :
  (room a <= k)%nat <-> 2 ^ 32 - a <= Z.of_nat k.
Proof. with_strategy transparent [room] (unfold room). lia. Qed.

(** A freshly formatted error with the verb [%s] matches no sentinel. *)
Lemma errFQDN_matches_nothing (e target : error) :
  sentinel target -> errors_Is (errFQDN e) target = false.
Proof. destruct target; intros []; reflexivity. Qed.

(** The error wrapped with [%w] matches the sentinels its operand
    matches. *)
Lemma errOther_matches (e target : error) :
  sentinel target -> errors_Is (errOther e) target = errors_Is e target.
Proof. destruct target; intros []; reflexivity. Qed.

(** ** One iteration of the loop *)

Lemma invoke_calls (p : Platform) (name size : Z) (w : World p) :
  calls (snd (invoke p name size w)) = calls w ++ [size].
Proof.
  unfold invoke. destruct (GetComputerNameEx p name size (sys w)). reflexivity.
Qed.

Lemma invoke_reply (p : Platform) (name size : Z) (w : World p) :
  fst (invoke p name size w) = fst (GetComputerNameEx p name size (sys w)).
Proof.
  unfold invoke. destruct (GetComputerNameEx p name size (sys w)). reflexivity.
Qed.

Section Iteration.
Variables (p : Platform) (name size : Z) (w w' : World p) (reply : Reply).
Hypothesis Hsize : size <> 0.
Hypothesis Hcall : invoke p name size w = (reply, w').

Lemma loop_success :
  callErr reply = None ->
  uint32 (nSize reply) <= size ->
  getComputerNameEx_loop p name size w =
  (Returns (UTF16ToString (firstn (Z.to_nat (uint32 (nSize reply)))
                                  (store size (lpBuffer reply))), None), w').
Proof.
  intros He Hle. rewrite getComputerNameEx_loop_equation_1.
  apply Z.eqb_neq in Hsize. rewrite Hsize, Hcall. cbn. rewrite He.
  apply Z.leb_le in Hle. now rewrite Hle.
Qed.

Lemma loop_panic :
  callErr reply = None ->
  uint32 (nSize reply) > size ->
  getComputerNameEx_loop p name size w = (Panics, w').
Proof.
  intros He Hgt. rewrite getComputerNameEx_loop_equation_1.
  apply Z.eqb_neq in Hsize. rewrite Hsize, Hcall. cbn. rewrite He.
  assert (Hf : (uint32 (nSize reply) <=? size) = false) by (apply Z.leb_gt; lia).
  now rewrite Hf.
Qed.

Lemma loop_fits (e : error) :
  callErr reply = Some e ->
  errors_Is e ERROR_MORE_DATA = true ->
  uint32 (nSize reply) <= size ->
  getComputerNameEx_loop p name size w = (Returns (""%string, Some errFits), w').
Proof.
  intros He Hm Hle. rewrite getComputerNameEx_loop_equation_1.
  apply Z.eqb_neq in Hsize. rewrite Hsize, Hcall. cbn. rewrite He, Hm.
  destruct (Z_le_gt_dec (uint32 (nSize reply)) size); [reflexivity | lia].
Qed.

Lemma loop_retry (e : error) :
  callErr reply = Some e ->
  errors_Is e ERROR_MORE_DATA = true ->
  uint32 (nSize reply) > size ->
  getComputerNameEx_loop p name size w =
  getComputerNameEx_loop p name (uint32 (nSize reply)) w'.
Proof.
  intros He Hm Hgt. rewrite getComputerNameEx_loop_equation_1.
  apply Z.eqb_neq in Hsize. rewrite Hsize, Hcall. cbn. rewrite He, Hm.
  destruct (Z_le_gt_dec (uint32 (nSize reply)) size); [lia | reflexivity].
Qed.

Lemma loop_other (e : error) :
  callErr reply = Some e ->
  errors_Is e ERROR_MORE_DATA = false ->
  getComputerNameEx_loop p name size w =
  (Returns (""%string, Some (errOther e)), w').
Proof.
  intros He Hm. rewrite getComputerNameEx_loop_equation_1.
  apply Z.eqb_neq in Hsize. rewrite Hsize, Hcall. cbn. now rewrite He, Hm.
Qed.
End Iteration.

(** ** The iterations of a run *)

Lemma iterates_size (p : Platform) (name : Z) (w0 : World p) size w :
  iterates p name w0 size w -> 64 <= size < 2 ^ 32.
Proof.
  induction 1 as [| size w reply w' e _ IH _ _ _ Hgt].
  - lia.
  - pose proof (uint32_range (nSize reply)). lia.
Qed.

(** Every iteration the loop begins is where the whole run continues. *)
Lemma iterates_run (p : Platform) (name : Z) (w0 : World p) size w :
  iterates p name w0 size w ->
  getComputerNameEx p name w0 = getComputerNameEx_loop p name size w.
Proof.
  induction 1 as [| size w reply w' e Hit IH Hcall He Hm Hgt].
  - reflexivity.
  - rewrite IH. apply iterates_size in Hit.
    eapply loop_retry; eauto. lia.
Qed.

(** C3. If on some iteration the system call fails with ERROR_MORE_DATA
    and the size it reports is not larger than the length of the buffer
    it was given, [getComputerNameEx] returns the empty string and the
    internal-consistency error, and the world it leaves is the one that
    call left: the log ends with that call, no other call follows. *)
Theorem getComputerNameEx_guard
    (p : Platform) (name : Z) (w0 : World p)
    (size : Z) (w w' : World p) (reply : Reply) (e : error) :
  iterates p name w0 size w ->
  invoke p name size w = (reply, w') ->
  callErr reply = Some e ->
  errors_Is e ERROR_MORE_DATA = true ->
  uint32 (nSize reply) <= size ->
  getComputerNameEx p name w0 = (Returns (""%string, Some errFits), w') /\
  calls w' = calls w ++ [size].
Proof.
  intros Hit Hcall He Hm Hle. split.
  - rewrite (iterates_run _ _ _ _ _ Hit).
    apply iterates_size in Hit.
    eapply loop_fits; eauto. lia.
  - pose proof (invoke_calls p name size w) as Hc.
    now rewrite Hcall in Hc.
Qed.

(** The guard on the second iteration: the system first asks for 100
    units and, given 100, asks for 100 again. *)
Lemma getComputerNameEx_guard_witness :
  getComputerNameEx scripted 7
    (start scripted [wants 100; wants 100; succeeds_with "host1"]) =
    (Returns (""%string, Some errFits),
     world scripted [succeeds_with "host1"] [64; 100]) /\
  [64; 100] = [64] ++ [100].
Proof.
  apply (getComputerNameEx_guard scripted 7 _ 100
           (world scripted [wants 100; succeeds_with "host1"] [64])
           (world scripted [succeeds_with "host1"] [64; 100])
           (wants 100) ERROR_MORE_DATA).
  - eapply (iterates_retry scripted 7 _ 64 _ (wants 100) _ ERROR_MORE_DATA).
    + apply iterates_first.
    + reflexivity.
    + reflexivity.
    + reflexivity.
    + reflexivity.
  - reflexivity.
  - reflexivity.
  - reflexivity.
  - vm_compute. discriminate.
Defined.

(** ** Growth of the buffer *)

(** What the system stored is found again at the start of the buffer. *)
Lemma store_prefix (n : Z) (text rest : list Z) :
  Forall (fun u => 0 <= u < 2 ^ 16) text ->
  Z.of_nat (List.length text) <= n ->
  firstn (List.length text) (store n (text ++ rest)) = text.
Proof.
  intros Hu Hn. unfold store.
  rewrite firstn_firstn, Nat.min_l by lia.
  rewrite map_app, <- app_assoc.
  assert (Hm : map uint16 text = text).
  { clear Hn. induction Hu as [| u l Hu _ IH]; [reflexivity |].
    cbn [map]. rewrite IH. f_equal. unfold uint16. now apply Z.mod_small. }
  rewrite Hm, firstn_app, Nat.sub_diag, firstn_O, app_nil_r.
  apply firstn_all.
Qed.

(** [ceil_log2_ratio S 64] is the least [k] with [64 * 2 ^ k >= S]. *)
Lemma ceil_log2_ratio_spec (S : Z) :
  64 < S ->
  let k := ceil_log2_ratio S 64 in
  1 <= k /\ 64 * 2 ^ (k - 1) < S <= 64 * 2 ^ k.
Proof.
  intros HS k. subst k. unfold ceil_log2_ratio.
  set (a := (S + 64 - 1) / 64).
  assert (Ha : 64 * a <= S + 63 < 64 * a + 64).
  { pose proof (Z.div_mod (S + 64 - 1) 64 ltac:(lia)) as Hd.
    pose proof (Z.mod_pos_bound (S + 64 - 1) 64 ltac:(lia)) as Hb.
    fold a in Hd. lia. }
  assert (H2 : 2 <= a) by lia.
  destruct (Z.log2_up_spec a ltac:(lia)) as [Hlo Hhi].
  assert (Hk : 1 <= Z.log2_up a).
  { change 1 with (Z.log2_up 2). apply Z.log2_up_le_mono. lia. }
  replace (Z.pred (Z.log2_up a)) with (Z.log2_up a - 1) in Hlo by lia.
  split; [exact Hk | lia].
Qed.

(** C4. Over a well-behaved system that wants [S] units, more than the 64
    of the first attempt, [getComputerNameEx] returns the decoded name and
    no error, after the two calls with 64 and with [S] units; two is at
    most the ceiling of [log2 (S / 64)] plus one. *)
Theorem getComputerNameEx_grows
    (p : Platform) (name S : Z) (text : list Z) (w : World p) :
  64 < S < 2 ^ 32 ->
  well_behaved p name S text ->
  exists w',
    getComputerNameEx p name w = (Returns (UTF16ToString text, None), w') /\
    calls w' = calls w ++ [64; S] /\
    Z.of_nat (List.length (calls w')) - Z.of_nat (List.length (calls w))
      <= ceil_log2_ratio S 64 + 1.
Proof.
  intros HS (Hlen & Hsmall & Hbig).
  destruct (invoke p name 64 w) as [r1 w1] eqn:E1.
  destruct (invoke p name S w1) as [r2 w2] eqn:E2.
  pose proof (invoke_reply p name 64 w) as R1. rewrite E1 in R1. cbn in R1.
  pose proof (invoke_reply p name S w1) as R2. rewrite E2 in R2. cbn in R2.
  pose proof (invoke_calls p name 64 w) as C1. rewrite E1 in C1. cbn in C1.
  pose proof (invoke_calls p name S w1) as C2. rewrite E2 in C2. cbn in C2.
  destruct (Hsmall (sys w) 64 ltac:(lia)) as [(e & He & Hm) Hn1].
  destruct (Hbig (sys w1) S ltac:(lia)) as (Hnil & Hn2 & Hbuf).
  rewrite <- R1 in He, Hn1. rewrite <- R2 in Hnil, Hn2, Hbuf.
  exists w2. split; [| split].
  - unfold getComputerNameEx.
    rewrite (loop_retry p name 64 w w1 r1 ltac:(lia) E1 e He Hm ltac:(lia)).
    rewrite Hn1.
    rewrite (loop_success p name S w1 w2 r2 ltac:(lia) E2 Hnil ltac:(lia)).
    now rewrite Hn2, Nat2Z.id, Hbuf.
  - rewrite C2, C1, <- app_assoc. reflexivity.
  - rewrite C2, C1, !length_app. cbn [List.length].
    pose proof (ceil_log2_ratio_spec S ltac:(lia)) as [Hk _]. lia.
Qed.

Lemma long_name_units :
  Forall (fun u => 0 <= u < 2 ^ 16) (units_of long_name).
Proof. repeat constructor; discriminate. Qed.

Lemma protocol_well_behaved (text : list Z) (name : Z) :
  Forall (fun u => 0 <= u < 2 ^ 16) text ->
  Z.of_nat (List.length text) + 1 < 2 ^ 32 ->
  well_behaved (healthy unit (protocol_call text)) name
               (Z.of_nat (List.length text) + 1) text.
Proof.
  intros Hu Hlen. unfold well_behaved.
  cbn [GetComputerNameEx healthy]. unfold protocol_call.
  set (L := Z.of_nat (List.length text)) in *.
  split; [lia | split]; intros s n Hn.
  - assert (Hlt : (n <? L + 1) = true) by (apply Z.ltb_lt; lia).
    rewrite Hlt. cbn [fst callErr nSize]. split.
    + now exists ERROR_MORE_DATA.
    + apply uint32_small. lia.
  - assert (Hlt : (n <? L + 1) = false) by (apply Z.ltb_ge; lia).
    rewrite Hlt. cbn [fst callErr nSize lpBuffer]. split; [| split].
    + reflexivity.
    + apply uint32_small. lia.
    + apply store_prefix; [exact Hu | lia].
Qed.

(** A name of 69 units: the system wants 70, the second call succeeds. *)
Lemma getComputerNameEx_grows_witness :
  exists w',
    getComputerNameEx (protocol long_name) 7 (start (protocol long_name) tt)
      = (Returns (UTF16ToString (units_of long_name), None), w') /\
    calls w' = [] ++ [64; 70] /\
    Z.of_nat (List.length (calls w')) - 0 <= ceil_log2_ratio 70 64 + 1.
Proof.
  apply (getComputerNameEx_grows (protocol long_name) 7 70 (units_of long_name)
           (start (protocol long_name) tt)).
  - lia.
  - exact (protocol_well_behaved (units_of long_name) 7 long_name_units
             ltac:(vm_compute; reflexivity)).
Defined.

(** ** Termination *)

(** From any iteration the run begins, the loop ends after at most as
    many calls as there are larger 32-bit sizes, in one of three ways;
    it panics only when the last call reported success with more units
    than the buffer has. *)
Lemma loop_ends (p : Platform) (name : Z) (w0 : World p) (k : nat) :
  forall size w,
    iterates p name w0 size w ->
    (room size <= k)%nat ->
    exists o w' sizes,
      getComputerNameEx_loop p name size w = (o, w') /\
      calls w' = calls w ++ sizes /\
      1 <= Z.of_nat (List.length sizes) <= 2 ^ 32 - size /\
      ending o /\
      (o = Panics ->
       exists n w1 reply,
         iterates p name w0 n w1 /\ invoke p name n w1 = (reply, w') /\
         callErr reply = None /\ uint32 (nSize reply) > n).
Proof.
  induction k as [| k IH]; intros size w Hit Hroom;
    pose proof (iterates_size _ _ _ _ _ Hit) as Hsz;
    apply room_le in Hroom; [lia |].
  destruct (invoke p name size w) as [reply w'] eqn:Hcall.
  pose proof (invoke_calls p name size w) as Hlog.
  rewrite Hcall in Hlog. cbn [snd] in Hlog.
  assert (Hnz : size <> 0) by lia.
  destruct (callErr reply) as [e |] eqn:He.
  - destruct (errors_Is e ERROR_MORE_DATA) eqn:Hm.
    + destruct (Z_le_gt_dec (uint32 (nSize reply)) size) as [Hle | Hgt].
      * exists (Returns (""%string, Some errFits)), w', [size].
        rewrite (loop_fits p name size w w' reply Hnz Hcall e He Hm Hle).
        repeat split; cbn [List.length]; try lia; try assumption.
        -- constructor.
        -- discriminate.
      * pose proof (uint32_range (nSize reply)) as Hr.
        destruct (IH (uint32 (nSize reply)) w') as (o & w'' & sizes & Hrun & Hc & Hn & Hend & Hp).
        { eapply iterates_retry; eauto. }
        { apply room_le. lia. }
        exists o, w'', (size :: sizes).
        rewrite (loop_retry p name size w w' reply Hnz Hcall e He Hm Hgt).
        repeat split; try assumption.
        -- rewrite Hc, Hlog, <- app_assoc. reflexivity.
        -- cbn [List.length]. lia.
        -- cbn [List.length]. lia.
    + exists (Returns (""%string, Some (errOther e))), w', [size].
      rewrite (loop_other p name size w w' reply Hnz Hcall e He Hm).
      repeat split; cbn [List.length]; try lia; try assumption.
      * constructor.
      * discriminate.
  - destruct (Z_le_gt_dec (uint32 (nSize reply)) size) as [Hle | Hgt].
    + eexists _, w', [size].
      rewrite (loop_success p name size w w' reply Hnz Hcall He Hle).
      repeat split; cbn [List.length]; try lia; try assumption.
      * constructor.
      * discriminate.
    + exists Panics, w', [size].
      rewrite (loop_panic p name size w w' reply Hnz Hcall He Hgt).
      repeat split; cbn [List.length]; try lia; try assumption.
      * constructor.
      * intros _. now exists size, w, reply.
Qed.

(** C5, as the code has it.  Whatever the system call does,
    [getComputerNameEx] ends after at most [2 ^ 32 - 64] calls: it returns
    a string, or the empty string and an error, or it panics, and it
    panics only at [buff[:size]], when the last call reported success with
    a size larger than the buffer it was given. *)
Theorem getComputerNameEx_terminates (p : Platform) (name : Z) (w : World p) :
  exists o w' sizes,
    getComputerNameEx p name w = (o, w') /\
    calls w' = calls w ++ sizes /\
    1 <= Z.of_nat (List.length sizes) <= 2 ^ 32 - 64 /\
    ending o /\
    (o = Panics ->
     exists n w1 reply,
       iterates p name w n w1 /\ invoke p name n w1 = (reply, w') /\
       callErr reply = None /\ uint32 (nSize reply) > n).
Proof.
  apply (loop_ends p name w (room 64) 64 w).
  - apply iterates_first.
  - apply Nat.le_refl.
Qed.

(** The run that ends in a panic: its one call, on the first iteration,
    reported success with 65 units for a buffer of 64. *)
Lemma getComputerNameEx_terminates_witness :
  exists n w1 reply,
    iterates scripted 7 (start scripted [succeeds_reporting 65]) n w1 /\
    invoke scripted 7 n w1 = (reply, world scripted [] [64]) /\
    callErr reply = None /\ uint32 (nSize reply) > n.
Proof.
  destruct (getComputerNameEx_terminates scripted 7
              (start scripted [succeeds_reporting 65]))
    as (o & w' & sizes & Hrun & _ & _ & _ & Hpanic).
  unfold getComputerNameEx in Hrun.
  rewrite (loop_panic scripted 7 64 (start scripted [succeeds_reporting 65])
             (world scripted [] [64]) (succeeds_reporting 65)) in Hrun;
    [| lia | reflexivity | reflexivity | reflexivity].
  injection Hrun as <- <-.
  exact (Hpanic eq_refl).
Defined.

(** C5 read literally fails: a call that reports success with 65 units
    for a buffer of 64 makes [getComputerNameEx] panic, which is neither
    a returned value nor a returned error. *)
Lemma getComputerNameEx_may_panic :
  ~ (exists s e,
       fst (getComputerNameEx scripted 7 (start scripted [succeeds_reporting 65]))
       = Returns (s, e)).
Proof.
  unfold getComputerNameEx.
  rewrite (loop_panic scripted 7 64 (start scripted [succeeds_reporting 65])
             (world scripted [] [64]) (succeeds_reporting 65));
    [| lia | reflexivity | reflexivity | reflexivity].
  intros (s & e & H). discriminate H.
Qed.

(** ** Suffixes *)

Section Suffixes.
Local Open Scope string_scope.

Lemma append_length (p t : string) :
  String.length (p ++ t) = (String.length p + String.length t)%nat.
Proof. induction p as [| c p IH]; cbn; [reflexivity | now rewrite IH]. Qed.

Lemma append_assoc (p q t : string) : (p ++ q) ++ t = p ++ (q ++ t).
Proof. induction p as [| c p IH]; cbn; [reflexivity | now rewrite IH]. Qed.

Lemma substring_all (t : string) : substring 0 (String.length t) t = t.
Proof. induction t as [| c t IH]; cbn; [reflexivity | now rewrite IH]. Qed.

Lemma substring_skip (p t : string) :
  substring (String.length p) (String.length t) (p ++ t) = t.
Proof. induction p as [| c p IH]; cbn; [apply substring_all | exact IH]. Qed.

Lemma substring_take (p t : string) :
  substring 0 (String.length p) (p ++ t) = p.
Proof.
  induction p as [| c p IH]; cbn.
  - destruct t; reflexivity.
  - now rewrite IH.
Qed.

Lemma substring_split (s : string) (n : nat) :
  (n <= String.length s)%nat ->
  s = substring 0 n s ++ substring n (String.length s - n) s.
Proof.
  revert n. induction s as [| c s IH]; intros n Hn.
  - destruct n; reflexivity.
  - destruct n as [| n].
    + cbn. now rewrite substring_all.
    + cbn in *. rewrite <- IH by lia. reflexivity.
Qed.

Lemma HasSuffix_append (p t : string) : HasSuffix (p ++ t) t = true.
Proof.
  unfold HasSuffix. rewrite append_length.
  replace (String.length p + String.length t - String.length t)%nat
    with (String.length p) by lia.
  rewrite substring_skip, String.eqb_refl, andb_true_r.
  apply Nat.leb_le. lia.
Qed.

Lemma TrimSuffix_append (p t : string) : TrimSuffix (p ++ t) t = p.
Proof.
  unfold TrimSuffix. rewrite HasSuffix_append, append_length.
  replace (String.length p + String.length t - String.length t)%nat
    with (String.length p) by lia.
  apply substring_take.
Qed.

Lemma HasSuffix_split (s t : string) :
  HasSuffix s t = true -> exists p, s = p ++ t.
Proof.
  unfold HasSuffix. intros H. apply andb_prop in H as [Hle Heq].
  apply Nat.leb_le in Hle. apply String.eqb_eq in Heq.
  exists (substring 0 (String.length s - String.length t) s).
  pose proof (substring_split s (String.length s - String.length t)
                ltac:(lia)) as Hsp.
  replace (String.length s - (String.length s - String.length t))%nat
    with (String.length t) in Hsp by lia.
  now rewrite Heq in Hsp.
Qed.

(** After one trailing dot is cut, a dot is left at the end exactly
    when the string ended with two. *)
Lemma TrimSuffix_dot (s : string) :
  HasSuffix (TrimSuffix s ".") "." = true <-> HasSuffix s ".." = true.
Proof.
  split; intros H.
  - destruct (HasSuffix s ".") eqn:Hs.
    + apply HasSuffix_split in Hs as [p ->].
      rewrite TrimSuffix_append in H.
      apply HasSuffix_split in H as [q ->].
      rewrite append_assoc. apply HasSuffix_append.
    + unfold TrimSuffix in H. rewrite Hs in H. congruence.
  - apply HasSuffix_split in H as [q ->].
    replace (q ++ "..") with ((q ++ ".") ++ ".") by apply append_assoc.
    rewrite TrimSuffix_append. apply HasSuffix_append.
Qed.
End Suffixes.

(** ** The steps of the reader *)

Lemma addErr_spec (r : reader) (err : option error) :
  addErr r err =
  ({| errs := errs r ++ failure err |},
   match err with Some _ => true | None => false end).
Proof.
  destruct r as [l]. destruct err as [e |]; cbn.
  - destruct (errors_Is e ErrNotImplemented); cbn;
      [now rewrite app_nil_r | reflexivity].
  - now rewrite app_nil_r.
Qed.

Lemma Err_combined (r : reader) : Err r = combined (errs r).
Proof. unfold Err. destruct (errs r); reflexivity. Qed.

Ltac step_spec q :=
  unfold assign; destruct q as [? [? |]]; cbn [fst snd];
  rewrite addErr_spec;
  match goal with h : host |- _ => destruct h end;
  reflexivity.

Lemma architecture_spec (p : Platform) (r : reader) (h : host) :
  architecture p r h =
  ({| errs := errs r ++ failure (snd (query_Architecture p)) |},
   {| info := assign set_Architecture (query_Architecture p) (info h) |}).
Proof. unfold architecture. step_spec (query_Architecture p). Qed.

Lemma bootTime_spec (p : Platform) (r : reader) (h : host) :
  bootTime p r h =
  ({| errs := errs r ++ failure (snd (query_BootTime p)) |},
   {| info := assign set_BootTime (query_BootTime p) (info h) |}).
Proof. unfold bootTime. step_spec (query_BootTime p). Qed.

Lemma hostname_spec (p : Platform) (r : reader) (h : host) :
  hostname p r h =
  ({| errs := errs r ++ failure (snd (os_Hostname p)) |},
   {| info := assign set_Hostname (os_Hostname p) (info h) |}).
Proof. unfold hostname. step_spec (os_Hostname p). Qed.

Lemma network_spec (p : Platform) (r : reader) (h : host) :
  network p r h =
  ({| errs := errs r ++ failure (snd (shared_Network p)) |},
   {| info :=
        assign (fun v i => set_MACs (snd v) (set_IPs (fst v) i))
               (shared_Network p) (info h) |}).
Proof.
  unfold network, assign.
  destruct (shared_Network p) as [[ips macs] [e |]]; cbn [fst snd];
    rewrite addErr_spec; destruct h; reflexivity.
Qed.

Lemma kernelVersion_spec (p : Platform) (r : reader) (h : host) :
  kernelVersion p r h =
  ({| errs := errs r ++ failure (snd (query_KernelVersion p)) |},
   {| info := assign set_KernelVersion (query_KernelVersion p) (info h) |}).
Proof. unfold kernelVersion. step_spec (query_KernelVersion p). Qed.

Lemma os_spec (p : Platform) (r : reader) (h : host) :
  os p r h =
  ({| errs := errs r ++ failure (snd (query_OperatingSystem p)) |},
   {| info := assign set_OS (query_OperatingSystem p) (info h) |}).
Proof. unfold os. step_spec (query_OperatingSystem p). Qed.

Lemma uniqueID_spec (p : Platform) (r : reader) (h : host) :
  uniqueID p r h =
  ({| errs := errs r ++ failure (snd (query_MachineID p)) |},
   {| info := assign set_UniqueID (query_MachineID p) (info h) |}).
Proof. unfold uniqueID. step_spec (query_MachineID p). Qed.

(** The time step leaves the reader as it is and sets both fields. *)
Lemma time_spec (p : Platform) (r : reader) (h : host) :
  time p r h =
  (r, {| info := set_TimezoneOffsetSec (snd (time_Now_Zone p))
                   (set_Timezone (fst (time_Now_Zone p)) (info h)) |}).
Proof. unfold time. destruct (time_Now_Zone p). reflexivity. Qed.

(** The FQDN step: a panic of the query is a panic of the step; an error
    is appended in its re-formatted form, whatever it is; a name is
    stored without one trailing dot. *)
Lemma fqdn_spec (p : Platform) (r : reader) (h : host) (w w' : World p)
    (name : string) (ferr : option error) :
  getComputerNameEx p ComputerNamePhysicalDnsFullyQualified w
    = (Returns (name, ferr), w') ->
  fqdn p r h w =
  (Returns ({| errs := errs r ++ match ferr with
                                 | Some e => [errFQDN e]
                                 | None => []
                                 end |},
            {| info := assign set_FQDN (TrimSuffix name ".", ferr) (info h) |}),
   w').
Proof.
  intros Hq. unfold fqdn, assign. rewrite Hq.
  destruct r, h, ferr as [e |]; cbn [fst snd].
  - rewrite addErr_spec. cbn [fst errs failure].
    now rewrite errFQDN_matches_nothing by exact I.
  - now rewrite app_nil_r.
Qed.

Lemma fqdn_panics (p : Platform) (r : reader) (h : host) (w w' : World p) :
  getComputerNameEx p ComputerNamePhysicalDnsFullyQualified w = (Panics, w') ->
  fqdn p r h w = (Panics, w').
Proof. intros Hq. unfold fqdn. now rewrite Hq. Qed.

(** ** A run of the aggregator *)

(** When the FQDN query returns, so does [newHost], with the handle; the
    error list is made of the failures in the order of the steps. *)
Lemma newHost_run (p : Platform) (w w' : World p)
    (name : string) (ferr : option error) :
  getComputerNameEx p ComputerNamePhysicalDnsFullyQualified w
    = (Returns (name, ferr), w') ->
  exists h,
    newHost p w
      = (Returns (h, combined (failures_with p (reformatted ferr))), w') /\
    facts_populated p (info h) /\
    FQDN (info h) = populated ""%string (TrimSuffix name ".", ferr).
Proof.
  intros Hq. unfold newHost.
  rewrite architecture_spec, bootTime_spec, hostname_spec.
  rewrite (fqdn_spec _ _ _ _ _ _ _ Hq).
  rewrite network_spec, kernelVersion_spec, os_spec, time_spec, uniqueID_spec.
  rewrite Err_combined. cbn [errs info].
  eexists. split; [| split].
  - unfold failures_with, reformatted. cbn [app].
    rewrite <- !app_assoc. reflexivity.
  - unfold facts_populated, populated, assign. cbn [info fst snd].
    destruct (snd (query_Architecture p)), (snd (query_BootTime p)),
      (snd (os_Hostname p)), (snd (shared_Network p)),
      (snd (query_KernelVersion p)), (snd (query_OperatingSystem p)),
      (snd (query_MachineID p)), ferr;
      repeat split; reflexivity.
  - unfold populated, assign. cbn [info fst snd].
    destruct (snd (query_Architecture p)), (snd (query_BootTime p)),
      (snd (os_Hostname p)), (snd (shared_Network p)),
      (snd (query_KernelVersion p)), (snd (query_OperatingSystem p)),
      (snd (query_MachineID p)), ferr;
      reflexivity.
Qed.

Lemma newHost_panics (p : Platform) (w w' : World p) :
  getComputerNameEx p ComputerNamePhysicalDnsFullyQualified w = (Panics, w') ->
  newHost p w = (Panics, w').
Proof.
  intros Hq. unfold newHost.
  rewrite architecture_spec, bootTime_spec, hostname_spec.
  now rewrite (fqdn_panics _ _ _ _ _ Hq).
Qed.

(** ** Runs of the simulated systems *)

Lemma scripted_names_itself (text : string) (rest : list Reply) :
  (String.length text <= 64)%nat ->
  getComputerNameEx scripted 7 (start scripted (succeeds_with text :: rest)) =
  (Returns (UTF16ToString
              (firstn (String.length text) (store 64 (units_of text ++ [0]))),
            None),
   world scripted rest [64]).
Proof.
  intros Hlen. unfold getComputerNameEx.
  rewrite (loop_success scripted 7 64 _ (world scripted rest [64])
             (succeeds_with text)).
  - cbn [succeeds_with nSize lpBuffer].
    rewrite uint32_small, Nat2Z.id by (change (2 ^ 32) with 4294967296; lia).
    reflexivity.
  - lia.
  - reflexivity.
  - reflexivity.
  - cbn [succeeds_with nSize].
    rewrite uint32_small by (change (2 ^ 32) with 4294967296; lia). lia.
Qed.

Lemma scripted_fails (e : error) (rest : list Reply) :
  errors_Is e ERROR_MORE_DATA = false ->
  getComputerNameEx scripted 7 (start scripted (fails_with e :: rest)) =
  (Returns (""%string, Some (errOther e)), world scripted rest [64]).
Proof.
  intros He. unfold getComputerNameEx.
  now apply (loop_other scripted 7 64 _ _ (fails_with e)).
Qed.

Lemma scripted_patchy_fails (e : error) (rest : list Reply) :
  errors_Is e ERROR_MORE_DATA = false ->
  getComputerNameEx scripted_patchy 7
    (start scripted_patchy (fails_with e :: rest)) =
  (Returns (""%string, Some (errOther e)), world scripted_patchy rest [64]).
Proof.
  intros He. unfold getComputerNameEx.
  now apply (loop_other scripted_patchy 7 64 _ _ (fails_with e)).
Qed.

(** ** Partial tolerance *)

(** C1, as the code has it.  Whenever the FQDN query returns, with an
    error that is not NotImplemented if it returns one, [newHost] returns
    the handle; every field holds the value its query returned or, when
    the query failed, its zero value, the FQDN being stored without one
    trailing dot; and the combined error lists the errors of the failing
    queries in the order of invocation, that of the FQDN query in its
    re-formatted form, and is nil when no query failed. *)
Theorem newHost_partial_tolerance (p : Platform) (w w' : World p)
    (name : string) (ferr : option error) :
  getComputerNameEx p ComputerNamePhysicalDnsFullyQualified w
    = (Returns (name, ferr), w') ->
  (forall e, ferr = Some e -> errors_Is e ErrNotImplemented = false) ->
  exists h,
    newHost p w
      = (Returns (h, combined (failures_with p (map errFQDN (failure ferr)))),
         w') /\
    facts_populated p (info h) /\
    FQDN (info h) = populated ""%string (TrimSuffix name ".", ferr).
Proof.
  intros Hq Hni.
  replace (map errFQDN (failure ferr)) with (reformatted ferr).
  - now apply newHost_run with (name := name).
  - destruct ferr as [e |]; [| reflexivity].
    cbn. now rewrite (Hni e eq_refl).
Qed.

(** The FQDN query fails with error 1355 on a platform where the boot
    time and the machine id fail too and the kernel version is not
    implemented: three errors, in order, and the other fields set. *)
Lemma newHost_partial_tolerance_witness :
  exists h,
    newHost scripted_patchy (start scripted_patchy [fails_with (Errno 1355)])
      = (Returns (h, Some {| Errors := [Errno 31;
                                        errFQDN (errOther (Errno 1355));
                                        errorString "registry key not found"] |}),
         world scripted_patchy [] [64]) /\
    facts_populated scripted_patchy (info h) /\
    FQDN (info h) = ""%string.
Proof.
  apply (newHost_partial_tolerance scripted_patchy
           (start scripted_patchy [fails_with (Errno 1355)])
           (world scripted_patchy [] [64])
           ""%string (Some (errOther (Errno 1355)))).
  - apply scripted_patchy_fails. reflexivity.
  - intros e He. injection He as <-. reflexivity.
Defined.

(** C1 read literally fails twice: a name that ends with a dot is not
    stored as returned, and the error of the FQDN query is not listed
    as returned. *)
Lemma partial_tolerance_not_literal :
  ~ partial_tolerance_as_claimed scripted
      (start scripted [succeeds_with "host1.example.com."]) /\
  ~ partial_tolerance_as_claimed scripted
      (start scripted [fails_with (Errno 1355)]).
Proof.
  split; intros H.
  - pose proof (scripted_names_itself "host1.example.com." []
                  ltac:(vm_compute; lia)) as Hq.
    destruct (H _ _ _ Hq) as (h & Hrun & _ & HF).
    destruct (newHost_run _ _ _ _ _ Hq) as (h2 & Hrun2 & _ & HF2).
    rewrite Hrun in Hrun2. injection Hrun2 as <-.
    rewrite HF in HF2. vm_compute in HF2. discriminate HF2.
  - pose proof (scripted_fails (Errno 1355) [] eq_refl) as Hq.
    destruct (H _ _ _ Hq) as (h & Hrun & _).
    destruct (newHost_run _ _ _ _ _ Hq) as (h2 & Hrun2 & _).
    rewrite Hrun in Hrun2. injection Hrun2 as _ He.
    vm_compute in He. discriminate He.
Qed.

(** ** NotImplemented *)

(** The seven steps that hand the error of their query to [addErr] drop
    an error that is NotImplemented: the list is left as it was. *)
Lemma addErr_suppresses (r : reader) (e : error) :
  errors_Is e ErrNotImplemented = true ->
  addErr r (Some e) = (r, true).
Proof. intros He. unfold addErr. now rewrite He. Qed.

(** ** The stored FQDN *)

(** C7, as the code has it.  When the FQDN query returns a name, the
    field holds it with one trailing dot cut off, if there is one; the
    field ends with a dot exactly when the name ended with two. *)
Theorem newHost_FQDN_trimmed (p : Platform) (w w' : World p) (name : string) :
  getComputerNameEx p ComputerNamePhysicalDnsFullyQualified w
    = (Returns (name, None), w') ->
  exists h e,
    newHost p w = (Returns (h, e), w') /\
    FQDN (info h) = TrimSuffix name "." /\
    (HasSuffix (FQDN (info h)) "." = true <-> HasSuffix name ".." = true).
Proof.
  intros Hq.
  destruct (newHost_run _ _ _ _ _ Hq) as (h & Hrun & _ & HF).
  cbn in HF. exists h. eexists. split; [exact Hrun | split; [exact HF |]].
  rewrite HF. apply TrimSuffix_dot.
Qed.

Lemma newHost_FQDN_trimmed_witness :
  exists h e,
    newHost scripted (start scripted [succeeds_with "host1.example.com."])
      = (Returns (h, e), world scripted [] [64]) /\
    FQDN (info h) = "host1.example.com"%string /\
    (HasSuffix (FQDN (info h)) "." = true <->
     HasSuffix "host1.example.com." ".." = true).
Proof.
  apply (newHost_FQDN_trimmed scripted
           (start scripted [succeeds_with "host1.example.com."])
           (world scripted [] [64]) "host1.example.com."%string).
  exact (scripted_names_itself "host1.example.com." [] ltac:(vm_compute; lia)).
Defined.

(** C7 read literally fails: of a name that ends with two dots, one is
    left in the field. *)
Lemma FQDN_keeps_a_dot :
  exists h e w',
    newHost scripted (start scripted [succeeds_with "host1.."])
      = (Returns (h, e), w') /\
    FQDN (info h) = "host1."%string /\
    HasSuffix (FQDN (info h)) "." = true.
Proof.
  pose proof (scripted_names_itself "host1.." [] ltac:(vm_compute; lia)) as Hq.
  destruct (newHost_run _ _ _ _ _ Hq) as (h & Hrun & _ & HF).
  exists h. eexists. eexists. split; [exact Hrun |].
  rewrite HF. split; reflexivity.
Qed.

(** ** The time step *)

(** C9. The time step leaves the reader as it found it and sets both
    fields; so whenever [newHost] returns, both fields hold what
    [time.Now().Zone()] gave, and the combined error is made of the
    errors of the other eight queries and of nothing else. *)
Theorem time_never_fails (p : Platform) :
  (forall r h,
     fst (time p r h) = r /\
     Timezone (info (snd (time p r h))) = fst (time_Now_Zone p) /\
     TimezoneOffsetSec (info (snd (time p r h))) = snd (time_Now_Zone p)) /\
  (forall (w w' : World p) h e,
     newHost p w = (Returns (h, e), w') ->
     Timezone (info h) = fst (time_Now_Zone p) /\
     TimezoneOffsetSec (info h) = snd (time_Now_Zone p) /\
     exists name ferr,
       getComputerNameEx p ComputerNamePhysicalDnsFullyQualified w
         = (Returns (name, ferr), w') /\
       e = combined (failures_with p (reformatted ferr))).
Proof.
  split.
  - intros r h. rewrite time_spec. repeat split.
  - intros w w' h e Hrun.
    destruct (getComputerNameEx p ComputerNamePhysicalDnsFullyQualified w)
      as [[[name ferr] |] w1] eqn:Hq.
    + destruct (newHost_run _ _ _ _ _ Hq) as (h2 & Hrun2 & Hf & _).
      rewrite Hrun in Hrun2. injection Hrun2 as -> -> ->.
      destruct Hf as (_ & _ & _ & _ & _ & _ & _ & Htz & Hoff & _).
      split; [exact Htz | split; [exact Hoff |]].
      now exists name, ferr.
    + rewrite (newHost_panics _ _ _ Hq) in Hrun. discriminate Hrun.
Qed.

Lemma time_never_fails_witness :
  exists h e,
    newHost scripted_patchy (start scripted_patchy [fails_with (Errno 1355)])
      = (Returns (h, e), world scripted_patchy [] [64]) /\
    Timezone (info h) = "CET"%string /\
    TimezoneOffsetSec (info h) = 3600 /\
    e = Some {| Errors := [Errno 31;
                           errFQDN (errOther (Errno 1355));
                           errorString "registry key not found"] |}.
Proof.
  destruct (newHost_run scripted_patchy _ _ _ _
              (scripted_patchy_fails (Errno 1355) [] eq_refl))
    as (h & Hrun & _).
  exists h. eexists. split; [exact Hrun |].
  destruct (proj2 (time_never_fails scripted_patchy) _ _ _ _ Hrun)
    as (Htz & Hoff & _).
  split; [exact Htz | split; [exact Hoff | reflexivity]].
Defined.

(** ** Live queries *)

Lemma Memory_handle (p : Platform) (h : host) (w : World p) :
  snd (fst (Memory p h w)) = h.
Proof.
  unfold Memory. destruct (GlobalMemoryStatusEx p (sys w)) as [[mem [e |]] s];
    reflexivity.
Qed.

Lemma CPUTime_handle (p : Platform) (h : host) (w : World p) :
  snd (fst (CPUTime p h w)) = h.
Proof.
  unfold CPUTime.
  destruct (GetSystemTimes p (sys w)) as [[[[idle kernel] user] [e |]] s];
    reflexivity.
Qed.

(** C6. Whenever [Memory] returns no error, it returns a record in which
    [Used] is [Total - Free] and [VirtualUsed] is
    [VirtualTotal - VirtualFree], both modulo [2 ^ 64], whatever the
    system reported. *)
Theorem Memory_used (p : Platform) (h h' : host) (w w' : World p)
    (om : option HostMemoryInfo) :
  Memory p h w = ((om, None), h', w') ->
  exists m,
    om = Some m /\
    Used m = (Total m - Free m) mod 2 ^ 64 /\
    VirtualUsed m = (VirtualTotal m - VirtualFree m) mod 2 ^ 64.
Proof.
  unfold Memory.
  destruct (GlobalMemoryStatusEx p (sys w)) as [[mem [e |]] s];
    intros H; [discriminate H |].
  injection H as <- _ _. eexists. split; [reflexivity |].
  split; reflexivity.
Qed.

(** With 16 GiB in all and 4 GiB free, 12 GiB are used. *)
Lemma Memory_used_witness :
  exists m,
    Some {| Total := 16 * GiB; Used := 12 * GiB; Free := 4 * GiB;
            Available := 4 * GiB; VirtualTotal := 24 * GiB;
            VirtualUsed := 15 * GiB; VirtualFree := 9 * GiB |} = Some m /\
    Used m = (Total m - Free m) mod 2 ^ 64 /\
    VirtualUsed m = (VirtualTotal m - VirtualFree m) mod 2 ^ 64.
Proof.
  apply (Memory_used scripted {| info := zeroHostInfo |} {| info := zeroHostInfo |}
           (start scripted []) (start scripted [])).
  reflexivity.
Defined.

(** C10. Whenever [Memory] returns no error, [Available] and [Free] of
    the record are equal: both are the available physical memory the
    system reported. *)
Theorem Memory_available_is_free (p : Platform) (h h' : host) (w w' : World p)
    (om : option HostMemoryInfo) :
  Memory p h w = ((om, None), h', w') ->
  exists m,
    om = Some m /\
    Available m = Free m /\
    Free m = AvailPhys (fst (fst (GlobalMemoryStatusEx p (sys w)))).
Proof.
  unfold Memory.
  destruct (GlobalMemoryStatusEx p (sys w)) as [[mem [e |]] s];
    intros H; [discriminate H |].
  injection H as <- _ _. eexists. split; [reflexivity |].
  split; reflexivity.
Qed.

Lemma Memory_available_is_free_witness :
  exists m,
    fst (fst (fst (Memory scripted {| info := zeroHostInfo |}
                          (start scripted [])))) = Some m /\
    Available m = Free m /\
    Free m = 4 * GiB.
Proof.
  apply (Memory_available_is_free scripted
           {| info := zeroHostInfo |} {| info := zeroHostInfo |}
           (start scripted []) (start scripted [])).
  reflexivity.
Defined.

(** ** The handle after construction *)

Lemma call_handle (p : Platform) (m : method) (h : host) (w : World p) :
  snd (fst (call p m h w)) = h.
Proof.
  destruct m; cbn [call].
  - reflexivity.
  - pose proof (CPUTime_handle p h w) as H.
    destruct (CPUTime p h w) as [[[t e] h'] w']. exact H.
  - pose proof (Memory_handle p h w) as H.
    destruct (Memory p h w) as [[[m e] h'] w']. exact H.
Qed.

(** C8. Over any sequence of calls of [Info], [CPUTime] and [Memory] on a
    handle, whatever the system answers, the handle is left as it was;
    every call of [Info] answers, and answers the information the handle
    was built with. *)
Theorem handle_is_immutable (p : Platform) (ms : list method)
    (h : host) (w : World p) :
  snd (fst (session p ms h w)) = h /\
  Info (snd (fst (session p ms h w))) = info h /\
  forall k,
    nth_error ms k = Some CallInfo ->
    nth_error (fst (fst (session p ms h w))) k = Some (InfoIs (info h)).
Proof.
  revert h w. induction ms as [| m rest IH]; intros h w.
  - cbn. repeat split. intros [| k]; discriminate.
  - cbn [session].
    pose proof (call_handle p m h w) as Hc.
    destruct (call p m h w) as [[x h1] w1] eqn:Ecall. cbn in Hc. subst h1.
    destruct (IH h w1) as (Hh & Hi & Hk).
    destruct (session p rest h w1) as [[xs h2] w2]. cbn in Hh, Hi, Hk |- *.
    split; [exact Hh | split; [exact Hi |]].
    intros [| k] Hnth; cbn in Hnth |- *.
    + injection Hnth as ->. cbn in Ecall. now injection Ecall as <- _.
    + now apply Hk.
Qed.

(** [Info] before and after two live queries, one of which fails. *)
Lemma handle_is_immutable_witness :
  let h := {| info := set_Hostname "host1" zeroHostInfo |} in
  let ms := [CallInfo; CallCPUTime; CallMemory; CallInfo] in
  let run := session scripted_patchy ms h (start scripted_patchy []) in
  snd (fst run) = h /\
  Info (snd (fst run)) = info h /\
  nth_error (fst (fst run)) 0 = Some (InfoIs (info h)) /\
  nth_error (fst (fst run)) 3 = Some (InfoIs (info h)).
Proof.
  intros h ms run.
  destruct (handle_is_immutable scripted_patchy ms h (start scripted_patchy []))
    as (Hh & Hi & Hk).
  split; [exact Hh | split; [exact Hi | split]].
  - exact (Hk 0%nat eq_refl).
  - exact (Hk 3%nat eq_refl).
Defined.

(** ** Worked runs *)

Example UTF16ToString_stops_at_NUL :
  UTF16ToString (units_of "host1" ++ [0; 104; 0]) = "host1"%string.
Proof. reflexivity. Qed.

Example decodeWTF16_pair_and_lone_surrogate :
  decodeWTF16 [0xd83d; 0xde00; 0xe9; 0xd800]
  = [0xf0; 0x9f; 0x98; 0x80; 0xc3; 0xa9; 0xed; 0xa0; 0x80].
Proof. reflexivity. Qed.

Example TrimSuffix_cuts_one_dot :
  TrimSuffix "host1.example.com." "." = "host1.example.com"%string /\
  TrimSuffix "host1" "." = "host1"%string /\
  TrimSuffix "" "." = ""%string.
Proof. repeat split. Qed.

Example errors_Is_follows_w_only :
  errors_Is (errOther ERROR_MORE_DATA) ERROR_MORE_DATA = true /\
  errors_Is (errFQDN ERROR_MORE_DATA) ERROR_MORE_DATA = false /\
  errors_Is (Errno 5) ERROR_MORE_DATA = false.
Proof. repeat split. Qed.

(** The scenario of the specification: the host name is found, the FQDN
    query fails with a system error, the memory query reports 16 GiB in
    all and 4 GiB free. *)
Example scenario :
  exists h w',
    newHost scripted (start scripted [fails_with (Errno 1355)])
      = (Returns (h, Some {| Errors := [errFQDN (errOther (Errno 1355))] |}), w') /\
    Hostname (Info h) = "host1"%string /\
    FQDN (Info h) = ""%string /\
    exists m,
      fst (fst (Memory scripted h w')) = (Some m, None) /\
      Available m = 4 * GiB /\ Used m = 12 * GiB.
Proof.
  destruct (newHost_run scripted _ _ _ _ (scripted_fails (Errno 1355) [] eq_refl))
    as (h & Hrun & Hf & HF).
  exists h. eexists. split; [exact Hrun |].
  destruct Hf as (_ & _ & Hn & _).
  split; [exact Hn | split; [exact HF |]].
  eexists. split; [reflexivity | split; reflexivity].
Qed.

(** * Further properties of the code *)

(** ** The last call of a run *)

(** From any iteration the run begins, the loop ends with a call that
    decides the result; the buffer lengths it logs start with the current
    one, grow strictly, and stay below [2 ^ 32]. *)
Lemma loop_last_call (p : Platform) (name : Z) (w0 : World p) (k : nat) :
  forall size w,
    iterates p name w0 size w ->
    (room size <= k)%nat ->
    exists n w1 reply rest,
      iterates p name w0 n w1 /\
      invoke p name n w1 = (reply, snd (getComputerNameEx_loop p name size w)) /\
      last_call n reply (fst (getComputerNameEx_loop p name size w)) /\
      calls (snd (getComputerNameEx_loop p name size w))
        = calls w ++ size :: rest /\
      StronglySorted Z.lt (size :: rest) /\
      Forall (fun x => x < 2 ^ 32) (size :: rest).
Proof.
  induction k as [| k IH]; intros size w Hit Hroom;
    pose proof (iterates_size _ _ _ _ _ Hit) as Hsz;
    apply room_le in Hroom; [lia |].
  destruct (invoke p name size w) as [reply w'] eqn:Hcall.
  pose proof (invoke_calls p name size w) as Hlog.
  rewrite Hcall in Hlog. cbn [snd] in Hlog.
  assert (Hnz : size <> 0) by lia.
  assert (Hone : StronglySorted Z.lt [size] /\ Forall (fun x => x < 2 ^ 32) [size]).
  { split; repeat constructor. lia. }
  destruct (callErr reply) as [e |] eqn:He.
  - destruct (errors_Is e ERROR_MORE_DATA) eqn:Hm.
    + destruct (Z_le_gt_dec (uint32 (nSize reply)) size) as [Hle | Hgt].
      * rewrite (loop_fits p name size w w' reply Hnz Hcall e He Hm Hle).
        exists size, w, reply, []. cbn [fst snd].
        repeat split; try tauto. eapply last_guard; eauto.
      * pose proof (uint32_range (nSize reply)) as Hr.
        rewrite (loop_retry p name size w w' reply Hnz Hcall e He Hm Hgt).
        destruct (IH (uint32 (nSize reply)) w')
          as (n & w1 & r1 & rest & Hit1 & Hinv & Hlast & Hc & Hs & Hb).
        { eapply iterates_retry; eauto. }
        { apply room_le. lia. }
        exists n, w1, r1, (uint32 (nSize reply) :: rest).
        repeat split; try assumption.
        -- rewrite Hc, Hlog, <- app_assoc. reflexivity.
        -- constructor; [exact Hs |].
           constructor; [lia |].
           apply StronglySorted_inv in Hs as [_ Hall].
           eapply Forall_impl; [| exact Hall]. cbn. intros; lia.
        -- constructor; [lia | exact Hb].
    + rewrite (loop_other p name size w w' reply Hnz Hcall e He Hm).
      exists size, w, reply, []. cbn [fst snd].
      repeat split; try tauto. eapply last_other; eauto.
  - destruct (Z_le_gt_dec (uint32 (nSize reply)) size) as [Hle | Hgt].
    + rewrite (loop_success p name size w w' reply Hnz Hcall He Hle).
      exists size, w, reply, []. cbn [fst snd].
      repeat split; try tauto. now apply last_success.
    + rewrite (loop_panic p name size w w' reply Hnz Hcall He Hgt).
      exists size, w, reply, []. cbn [fst snd].
      repeat split; try tauto. now apply last_overrun.
Qed.

Lemma run_last_call (p : Platform) (name : Z) (w : World p) :
  exists n w1 reply rest,
    iterates p name w n w1 /\
    invoke p name n w1 = (reply, snd (getComputerNameEx p name w)) /\
    last_call n reply (fst (getComputerNameEx p name w)) /\
    calls (snd (getComputerNameEx p name w)) = calls w ++ 64 :: rest /\
    StronglySorted Z.lt (64 :: rest) /\
    Forall (fun x => x < 2 ^ 32) (64 :: rest).
Proof.
  apply (loop_last_call p name w (room 64) 64 w).
  - apply iterates_first.
  - apply Nat.le_refl.
Qed.

Lemma scripted_second_try :
  getComputerNameEx scripted 7
    (start scripted [wants 100; succeeds_with "host1"]) =
  (Returns ("host1"%string, None), world scripted [] [64; 100]).
Proof.
  unfold getComputerNameEx.
  rewrite (loop_retry scripted 7 64
             (start scripted [wants 100; succeeds_with "host1"])
             (world scripted [succeeds_with "host1"] [64])
             (wants 100) ltac:(lia) eq_refl ERROR_MORE_DATA eq_refl eq_refl
             ltac:(vm_compute; reflexivity)).
  change (uint32 (nSize (wants 100))) with 100.
  now rewrite (loop_success scripted 7 100
                 (world scripted [succeeds_with "host1"] [64])
                 (world scripted [] [64; 100])
                 (succeeds_with "host1") ltac:(lia) eq_refl eq_refl
                 ltac:(vm_compute; discriminate)).
Qed.

(** ** What [getComputerNameEx] returns, and when *)

(** X1. An error of the system call that is not ERROR_MORE_DATA ends the
    run on the iteration it occurs: the empty string comes back with the
    error wrapped by [%w], the call is the last one logged, and the
    wrapped error matches under [errors.Is] exactly the sentinels (the
    one of package [types], the values of [syscall.Errno]) that the
    system's error matches. *)
Theorem getComputerNameEx_other_error
    (p : Platform) (name : Z) (w0 : World p)
    (size : Z) (w w' : World p) (reply : Reply) (e : error) :
  iterates p name w0 size w ->
  invoke p name size w = (reply, w') ->
  callErr reply = Some e ->
  errors_Is e ERROR_MORE_DATA = false ->
  getComputerNameEx p name w0 = (Returns (""%string, Some (errOther e)), w') /\
  calls w' = calls w ++ [size] /\
  forall target,
    sentinel target -> errors_Is (errOther e) target = errors_Is e target.
Proof.
  intros Hit Hcall He Hm. split; [| split].
  - rewrite (iterates_run _ _ _ _ _ Hit).
    apply iterates_size in Hit.
    eapply loop_other; eauto. lia.
  - pose proof (invoke_calls p name size w) as Hc.
    now rewrite Hcall in Hc.
  - intros target. apply errOther_matches.
Qed.

(** Access denied (error 5) on the second iteration. *)
Lemma getComputerNameEx_other_error_witness :
  getComputerNameEx scripted 7
    (start scripted [wants 100; fails_with (Errno 5)]) =
    (Returns (""%string, Some (errOther (Errno 5))),
     world scripted [] [64; 100]) /\
  [64; 100] = [64] ++ [100] /\
  forall target,
    sentinel target ->
    errors_Is (errOther (Errno 5)) target = errors_Is (Errno 5) target.
Proof.
  apply (getComputerNameEx_other_error scripted 7 _ 100
           (world scripted [fails_with (Errno 5)] [64])
           (world scripted [] [64; 100])
           (fails_with (Errno 5)) (Errno 5)).
  - eapply (iterates_retry scripted 7 _ 64 _ (wants 100) _ ERROR_MORE_DATA).
    + apply iterates_first.
    + reflexivity.
    + reflexivity.
    + reflexivity.
    + reflexivity.
  - reflexivity.
  - reflexivity.
  - reflexivity.
Defined.

(** X2. In every run the first buffer has 64 units, each later buffer is
    strictly longer than the one before, and every length is below
    [2 ^ 32]: the buffer never shrinks and is never offered twice at the
    same length. *)
Theorem getComputerNameEx_buffers_grow (p : Platform) (name : Z) (w : World p) :
  exists rest,
    calls (snd (getComputerNameEx p name w)) = calls w ++ 64 :: rest /\
    StronglySorted Z.lt (64 :: rest) /\
    Forall (fun x => x < 2 ^ 32) (64 :: rest).
Proof.
  destruct (run_last_call p name w) as (n & w1 & reply & rest & _ & _ & _ & H).
  now exists rest.
Qed.

(** X3. A name returned without error is the decoding of the buffer of
    the last call, cut at the length that call reported; that call
    returned no error and reported a length within the buffer. *)
Theorem getComputerNameEx_name_is_decoded
    (p : Platform) (name : Z) (w w' : World p) (s : string) :
  getComputerNameEx p name w = (Returns (s, None), w') ->
  exists n w1 reply,
    iterates p name w n w1 /\
    invoke p name n w1 = (reply, w') /\
    callErr reply = None /\
    uint32 (nSize reply) <= n /\
    s = UTF16ToString (firstn (Z.to_nat (uint32 (nSize reply)))
                              (store n (lpBuffer reply))).
Proof.
  intros Hrun.
  destruct (run_last_call p name w)
    as (n & w1 & reply & rest & Hit & Hinv & Hlast & _).
  rewrite Hrun in Hinv, Hlast. cbn [fst snd] in Hinv, Hlast.
  exists n, w1, reply. inversion Hlast; subst. now repeat split.
Qed.

Lemma getComputerNameEx_name_is_decoded_witness :
  exists n w1 reply,
    iterates scripted 7 (start scripted [wants 100; succeeds_with "host1"]) n w1 /\
    invoke scripted 7 n w1 = (reply, world scripted [] [64; 100]) /\
    callErr reply = None /\
    uint32 (nSize reply) <= n /\
    "host1"%string = UTF16ToString (firstn (Z.to_nat (uint32 (nSize reply)))
                                           (store n (lpBuffer reply))).
Proof.
  apply (getComputerNameEx_name_is_decoded scripted 7).
  exact scripted_second_try.
Defined.

(** X4. An error comes back with the empty string, and for one of two
    reasons only: the last call failed with ERROR_MORE_DATA without
    asking for more than it was given, and the error is the
    internal-consistency one; or the last call failed with another error,
    and the error is that one, wrapped. *)
Theorem getComputerNameEx_error_cause
    (p : Platform) (name : Z) (w w' : World p) (s : string) (err : error) :
  getComputerNameEx p name w = (Returns (s, Some err), w') ->
  s = ""%string /\
  exists n w1 reply e,
    iterates p name w n w1 /\
    invoke p name n w1 = (reply, w') /\
    callErr reply = Some e /\
    ((errors_Is e ERROR_MORE_DATA = true /\ uint32 (nSize reply) <= n /\
      err = errFits) \/
     (errors_Is e ERROR_MORE_DATA = false /\ err = errOther e)).
Proof.
  intros Hrun.
  destruct (run_last_call p name w)
    as (n & w1 & reply & rest & Hit & Hinv & Hlast & _).
  rewrite Hrun in Hinv, Hlast. cbn [fst snd] in Hinv, Hlast.
  inversion Hlast; subst; (split; [reflexivity |]);
    exists n, w1, reply, e; repeat split; auto.
Qed.

Lemma getComputerNameEx_error_cause_witness :
  ""%string = ""%string /\
  exists n w1 reply e,
    iterates scripted 7 (start scripted [fails_with (Errno 5)]) n w1 /\
    invoke scripted 7 n w1 = (reply, world scripted [] [64]) /\
    callErr reply = Some e /\
    ((errors_Is e ERROR_MORE_DATA = true /\ uint32 (nSize reply) <= n /\
      errOther (Errno 5) = errFits) \/
     (errors_Is e ERROR_MORE_DATA = false /\ errOther (Errno 5) = errOther e)).
Proof.
  apply (getComputerNameEx_error_cause scripted 7).
  exact (scripted_fails (Errno 5) [] eq_refl).
Defined.

(** X5. No error that [getComputerNameEx] returns matches ERROR_MORE_DATA
    under [errors.Is]: that condition is either retried or turned into
    the internal-consistency error, never handed to the caller. *)
Theorem getComputerNameEx_never_more_data
    (p : Platform) (name : Z) (w w' : World p) (s : string) (err : error) :
  getComputerNameEx p name w = (Returns (s, Some err), w') ->
  errors_Is err ERROR_MORE_DATA = false.
Proof.
  intros Hrun.
  destruct (run_last_call p name w)
    as (n & w1 & reply & rest & _ & _ & Hlast & _).
  rewrite Hrun in Hlast. cbn [fst] in Hlast.
  inversion Hlast; subst.
  - reflexivity.
  - now rewrite errOther_matches by exact I.
Qed.

Lemma getComputerNameEx_never_more_data_witness :
  errors_Is errFits ERROR_MORE_DATA = false.
Proof.
  apply (getComputerNameEx_never_more_data scripted 7
           (start scripted [wants 100; wants 100; succeeds_with "host1"])
           (world scripted [succeeds_with "host1"] [64; 100]) ""%string).
  unfold getComputerNameEx.
  rewrite (loop_retry scripted 7 64
             (start scripted [wants 100; wants 100; succeeds_with "host1"])
             (world scripted [wants 100; succeeds_with "host1"] [64])
             (wants 100) ltac:(lia) eq_refl ERROR_MORE_DATA eq_refl eq_refl
             ltac:(vm_compute; reflexivity)).
  change (uint32 (nSize (wants 100))) with 100.
  exact (loop_fits scripted 7 100
           (world scripted [wants 100; succeeds_with "host1"] [64])
           (world scripted [succeeds_with "host1"] [64; 100])
           (wants 100) ltac:(lia) eq_refl ERROR_MORE_DATA eq_refl eq_refl
           ltac:(vm_compute; discriminate)).
Defined.

(** ** Well-behaved systems *)

(** Over a well-behaved system the run is one call when 64 units are
    enough and two calls otherwise. *)
Lemma well_behaved_run
    (p : Platform) (name S : Z) (text : list Z) (w : World p) :
  0 < S < 2 ^ 32 ->
  well_behaved p name S text ->
  exists w',
    getComputerNameEx p name w = (Returns (UTF16ToString text, None), w') /\
    calls w' = calls w ++ (if S <=? 64 then [64] else [64; S]).
Proof.
  intros HS (Hlen & Hsmall & Hbig).
  destruct (invoke p name 64 w) as [r1 w1] eqn:E1.
  pose proof (invoke_reply p name 64 w) as R1. rewrite E1 in R1. cbn in R1.
  pose proof (invoke_calls p name 64 w) as C1. rewrite E1 in C1. cbn in C1.
  unfold getComputerNameEx.
  destruct (Z.leb_spec S 64) as [Hfit | Hbigger].
  - destruct (Hbig (sys w) 64 ltac:(lia)) as (Hnil & Hn & Hbuf).
    rewrite <- R1 in Hnil, Hn, Hbuf.
    exists w1. split; [| exact C1].
    rewrite (loop_success p name 64 w w1 r1 ltac:(lia) E1 Hnil ltac:(lia)).
    now rewrite Hn, Nat2Z.id, Hbuf.
  - destruct (invoke p name S w1) as [r2 w2] eqn:E2.
    pose proof (invoke_reply p name S w1) as R2. rewrite E2 in R2. cbn in R2.
    pose proof (invoke_calls p name S w1) as C2. rewrite E2 in C2. cbn in C2.
    destruct (Hsmall (sys w) 64 ltac:(lia)) as [(e & He & Hm) Hn1].
    destruct (Hbig (sys w1) S ltac:(lia)) as (Hnil & Hn2 & Hbuf).
    rewrite <- R1 in He, Hn1. rewrite <- R2 in Hnil, Hn2, Hbuf.
    exists w2. split.
    + rewrite (loop_retry p name 64 w w1 r1 ltac:(lia) E1 e He Hm ltac:(lia)).
      rewrite Hn1.
      rewrite (loop_success p name S w1 w2 r2 ltac:(lia) E2 Hnil ltac:(lia)).
      now rewrite Hn2, Nat2Z.id, Hbuf.
    + rewrite C2, C1, <- app_assoc. reflexivity.
Qed.

(** X6. When a well-behaved system wants no more than the 64 units of
    the first attempt, [getComputerNameEx] returns the decoded name after
    that one call. *)
Theorem getComputerNameEx_first_call_suffices
    (p : Platform) (name S : Z) (text : list Z) (w : World p) :
  0 < S <= 64 ->
  well_behaved p name S text ->
  exists w',
    getComputerNameEx p name w = (Returns (UTF16ToString text, None), w') /\
    calls w' = calls w ++ [64].
Proof.
  intros HS Hwb.
  destruct (well_behaved_run p name S text w) as (w' & Hrun & Hc);
    [change (2 ^ 32) with 4294967296; lia | exact Hwb |].
  exists w'. split; [exact Hrun |].
  destruct (Z.leb_spec S 64); [exact Hc | lia].
Qed.

Lemma units_in_range (s : string) :
  Forall (fun u => 0 <= u < 2 ^ 16) (units_of s).
Proof.
  unfold units_of. induction s as [| c s IH]; cbn; constructor; [| exact IH].
  pose proof (N_ascii_bounded c). change (2 ^ 16) with 65536. lia.
Qed.

Lemma units_length (s : string) :
  List.length (units_of s) = String.length s.
Proof.
  unfold units_of. induction s as [| c s IH]; cbn; [reflexivity | now rewrite IH].
Qed.

Lemma getComputerNameEx_first_call_suffices_witness :
  exists w',
    getComputerNameEx (protocol "host1") 7 (start (protocol "host1") tt)
      = (Returns (UTF16ToString (units_of "host1"), None), w') /\
    calls w' = [] ++ [64].
Proof.
  apply (getComputerNameEx_first_call_suffices (protocol "host1") 7 6
           (units_of "host1") (start (protocol "host1") tt)).
  - lia.
  - exact (protocol_well_behaved (units_of "host1") 7 (units_in_range "host1")
             ltac:(vm_compute; reflexivity)).
Defined.

(** Decoding the units of an ASCII name gives the name back. *)
Lemma UTF16ToString_units (s : string) :
  ascii_name s -> UTF16ToString (units_of s) = s.
Proof.
  unfold ascii_name, UTF16ToString, units_of, string_of_bytes.
  induction s as [| c s IH]; intros Ha; [reflexivity |].
  cbn [list_ascii_of_string map] in *.
  apply Forall_cons_iff in Ha as [Hc Hs]. specialize (IH Hs).
  set (r := Z.of_N (N_of_ascii c)) in *.
  assert (Hr : 0 < r < 128) by (subst r; lia).
  cbn [untilNUL].
  replace (r =? 0) with false by (symmetry; apply Z.eqb_neq; lia).
  cbn [decodeWTF16].
  replace (r <? surr1) with true
    by (symmetry; apply Z.ltb_lt; unfold surr1; lia).
  cbn [orb]. unfold AppendRune.
  replace (r <=? 127) with true by (symmetry; apply Z.leb_le; lia).
  cbn [app map string_of_list_ascii]. rewrite IH. f_equal.
  unfold byte_of. rewrite Z.mod_small by lia.
  subst r. now rewrite N2Z.id, ascii_N_embedding.
Qed.

(** X7. Over a system that follows the protocol and holds an ASCII name,
    [getComputerNameEx] returns that very name and no error, with one
    call when the name and its NUL fit in 64 units and with two
    otherwise. *)
Theorem getComputerNameEx_returns_the_name (s : string) (name : Z) :
  ascii_name s ->
  Z.of_nat (String.length s) + 1 < 2 ^ 32 ->
  exists w',
    getComputerNameEx (protocol s) name (start (protocol s) tt)
      = (Returns (s, None), w') /\
    calls w' = if Z.of_nat (String.length s) + 1 <=? 64
               then [64]
               else [64; Z.of_nat (String.length s) + 1].
Proof.
  intros Ha Hlen.
  pose proof (protocol_well_behaved (units_of s) name (units_in_range s)) as Hwb.
  rewrite units_length in Hwb. specialize (Hwb Hlen).
  destruct (well_behaved_run (protocol s) name
              (Z.of_nat (String.length s) + 1) (units_of s)
              (start (protocol s) tt) ltac:(lia) Hwb) as (w' & Hrun & Hc).
  exists w'. rewrite UTF16ToString_units in Hrun by exact Ha.
  split; [exact Hrun | exact Hc].
Qed.

Lemma long_name_is_ascii : ascii_name long_name.
Proof. repeat constructor. Qed.

Lemma getComputerNameEx_returns_the_name_witness :
  exists w',
    getComputerNameEx (protocol long_name) 7 (start (protocol long_name) tt)
      = (Returns (long_name, None), w') /\
    calls w' = [64; 70].
Proof.
  apply (getComputerNameEx_returns_the_name long_name 7).
  - exact long_name_is_ascii.
  - vm_compute. reflexivity.
Defined.

(** ** What [newHost] returns *)

Lemma failure_nil_iff (err : option error) : failure err = [] <-> tolerated err.
Proof.
  unfold tolerated. destruct err as [e |]; cbn.
  - destruct (errors_Is e ErrNotImplemented) eqn:He; split.
    + intros _ x Hx. now injection Hx as <-.
    + reflexivity.
    + discriminate.
    + intros H. specialize (H e eq_refl). congruence.
  - split; [intros _ x Hx; discriminate | reflexivity].
Qed.

Lemma failure_length (err : option error) : (List.length (failure err) <= 1)%nat.
Proof.
  destruct err as [e |]; cbn; [| lia].
  destruct (errors_Is e ErrNotImplemented); cbn; lia.
Qed.

Lemma failure_unmatched (err : option error) :
  Forall (fun x => errors_Is x ErrNotImplemented = false) (failure err).
Proof.
  destruct err as [e |]; cbn; [| constructor].
  destruct (errors_Is e ErrNotImplemented) eqn:He; repeat constructor.
  exact He.
Qed.

(** A run of [newHost] that returns is a run in which the FQDN query
    returned. *)
Lemma newHost_returns_inv (p : Platform) (w w' : World p)
    (h : host) (e : option MultiError) :
  newHost p w = (Returns (h, e), w') ->
  exists name ferr,
    getComputerNameEx p ComputerNamePhysicalDnsFullyQualified w
      = (Returns (name, ferr), w') /\
    e = combined (failures_with p (reformatted ferr)) /\
    facts_populated p (info h) /\
    FQDN (info h) = populated ""%string (TrimSuffix name ".", ferr).
Proof.
  intros Hrun.
  destruct (getComputerNameEx p ComputerNamePhysicalDnsFullyQualified w)
    as [[[name ferr] |] w1] eqn:Hq.
  - destruct (newHost_run _ _ _ _ _ Hq) as (h2 & Hrun2 & Hf & HF).
    rewrite Hrun in Hrun2. injection Hrun2 as -> -> ->.
    now exists name, ferr.
  - rewrite (newHost_panics _ _ _ Hq) in Hrun. discriminate Hrun.
Qed.

(** X8. When the FQDN query returns, the error of [newHost] is nil
    exactly when that query returned no error and each of the seven other
    fallible queries returned either no error or one that is
    NotImplemented. *)
Theorem newHost_nil_error_iff (p : Platform) (w w' : World p)
    (name : string) (ferr : option error) :
  getComputerNameEx p ComputerNamePhysicalDnsFullyQualified w
    = (Returns (name, ferr), w') ->
  exists h e,
    newHost p w = (Returns (h, e), w') /\
    (e = None <-> ferr = None /\ Forall tolerated (plain_errors p)).
Proof.
  intros Hq. destruct (newHost_run _ _ _ _ _ Hq) as (h & Hrun & _).
  exists h. eexists. split; [exact Hrun |].
  unfold failures_with, plain_errors.
  rewrite !Forall_cons_iff, <- !failure_nil_iff.
  destruct (failure (snd (query_Architecture p))),
    (failure (snd (query_BootTime p))), (failure (snd (os_Hostname p))),
    (failure (snd (shared_Network p))), (failure (snd (query_KernelVersion p))),
    (failure (snd (query_OperatingSystem p))),
    (failure (snd (query_MachineID p))), ferr;
    cbn; split; intros H; try discriminate H;
    try (repeat split; reflexivity || constructor);
    try (decompose [and] H; discriminate).
Qed.

Lemma newHost_nil_error_iff_witness :
  exists h e,
    newHost scripted (start scripted [succeeds_with "host1.example.com."])
      = (Returns (h, e), world scripted [] [64]) /\
    (e = None <-> @None error = None /\ Forall tolerated (plain_errors scripted)).
Proof.
  apply (newHost_nil_error_iff scripted _ _ "host1.example.com."%string).
  exact (scripted_names_itself "host1.example.com." [] ltac:(vm_compute; lia)).
Defined.

(** X9. A combined error that [newHost] returns is never empty and holds
    at most eight errors, one for each step that can fail. *)
Theorem newHost_error_count (p : Platform) (w w' : World p)
    (h : host) (m : MultiError) :
  newHost p w = (Returns (h, Some m), w') ->
  (1 <= List.length (Errors m) <= 8)%nat.
Proof.
  intros Hrun.
  destruct (newHost_returns_inv _ _ _ _ _ Hrun) as (name & ferr & _ & He & _).
  assert (Hl : (List.length (failures_with p (reformatted ferr)) <= 8)%nat).
  { unfold failures_with. rewrite !length_app.
    pose proof (failure_length (snd (query_Architecture p))).
    pose proof (failure_length (snd (query_BootTime p))).
    pose proof (failure_length (snd (os_Hostname p))).
    pose proof (failure_length (snd (shared_Network p))).
    pose proof (failure_length (snd (query_KernelVersion p))).
    pose proof (failure_length (snd (query_OperatingSystem p))).
    pose proof (failure_length (snd (query_MachineID p))).
    assert ((List.length (reformatted ferr) <= 1)%nat)
      by (destruct ferr; cbn; lia).
    lia. }
  destruct (failures_with p (reformatted ferr)) as [| x l]; cbn in He;
    [discriminate He |].
  injection He as ->. cbn [Errors List.length] in *. lia.
Qed.

Lemma newHost_error_count_witness :
  (1 <= List.length [Errno 31; errFQDN (errOther (Errno 1355));
                     errorString "registry key not found"] <= 8)%nat.
Proof.
  destruct (newHost_run scripted_patchy _ _ _ _
              (scripted_patchy_fails (Errno 1355) [] eq_refl))
    as (h & Hrun & _).
  exact (newHost_error_count scripted_patchy _ _ h _ Hrun).
Defined.

(** X11. Whatever error the FQDN query returns, [newHost] returns a
    combined error that lists its re-formatted form and leaves the FQDN
    empty; the listed error matches no sentinel under [errors.Is]
    (neither the one of package [types] nor any [syscall.Errno]), so the
    error of the system cannot be recognised in it. *)
Theorem newHost_fqdn_error_listed (p : Platform) (w w' : World p)
    (name : string) (e : error) :
  getComputerNameEx p ComputerNamePhysicalDnsFullyQualified w
    = (Returns (name, Some e), w') ->
  exists h m,
    newHost p w = (Returns (h, Some m), w') /\
    In (errFQDN e) (Errors m) /\
    FQDN (info h) = ""%string /\
    forall target, sentinel target -> errors_Is (errFQDN e) target = false.
Proof.
  intros Hq. destruct (newHost_run _ _ _ _ _ Hq) as (h & Hrun & _ & HF).
  assert (Hin : In (errFQDN e) (failures_with p (reformatted (Some e)))).
  { unfold failures_with. rewrite !in_app_iff. cbn. tauto. }
  destruct (failures_with p (reformatted (Some e))) as [| x l] eqn:El;
    [contradiction |].
  exists h, {| Errors := x :: l |}.
  split; [exact Hrun | split; [exact Hin | split; [exact HF |]]].
  intros target. apply errFQDN_matches_nothing.
Qed.

Lemma newHost_fqdn_error_listed_witness :
  exists h m,
    newHost scripted_patchy (start scripted_patchy [fails_with (Errno 1355)])
      = (Returns (h, Some m), world scripted_patchy [] [64]) /\
    In (errFQDN (errOther (Errno 1355))) (Errors m) /\
    FQDN (info h) = ""%string /\
    forall target,
      sentinel target ->
      errors_Is (errFQDN (errOther (Errno 1355))) target = false.
Proof.
  apply (newHost_fqdn_error_listed scripted_patchy _ _ ""%string).
  apply scripted_patchy_fails. reflexivity.
Defined.

(** X12. The stored FQDN and the name the query returned differ by at
    most one final dot: a name that does not end with a dot is stored as
    it is, and otherwise the name is the stored FQDN followed by a dot. *)
Theorem newHost_FQDN_one_dot (p : Platform) (w w' : World p) (name : string) :
  getComputerNameEx p ComputerNamePhysicalDnsFullyQualified w
    = (Returns (name, None), w') ->
  exists h e,
    newHost p w = (Returns (h, e), w') /\
    (HasSuffix name "." = false -> FQDN (info h) = name) /\
    (HasSuffix name "." = true -> name = (FQDN (info h) ++ ".")%string).
Proof.
  intros Hq. destruct (newHost_run _ _ _ _ _ Hq) as (h & Hrun & _ & HF).
  cbn in HF. exists h. eexists. split; [exact Hrun |]. rewrite HF.
  split; intros Hs.
  - unfold TrimSuffix. now rewrite Hs.
  - apply HasSuffix_split in Hs as [q ->]. now rewrite TrimSuffix_append.
Qed.

Lemma newHost_FQDN_one_dot_witness :
  exists h e,
    newHost scripted (start scripted [succeeds_with "host1.example.com."])
      = (Returns (h, e), world scripted [] [64]) /\
    (HasSuffix "host1.example.com." "." = false ->
     FQDN (info h) = "host1.example.com."%string) /\
    (HasSuffix "host1.example.com." "." = true ->
     "host1.example.com."%string = (FQDN (info h) ++ ".")%string).
Proof.
  apply (newHost_FQDN_one_dot scripted _ _ "host1.example.com."%string).
  exact (scripted_names_itself "host1.example.com." [] ltac:(vm_compute; lia)).
Defined.

(** X13. No error listed in the combined error of [newHost] matches
    NotImplemented under [errors.Is]: [addErr] lets none in, and the
    FQDN step lists an error that matches no sentinel. *)
Theorem newHost_lists_no_NotImplemented (p : Platform) (w w' : World p)
    (h : host) (m : MultiError) :
  newHost p w = (Returns (h, Some m), w') ->
  Forall (fun x => errors_Is x ErrNotImplemented = false) (Errors m).
Proof.
  intros Hrun.
  destruct (newHost_returns_inv _ _ _ _ _ Hrun) as (name & ferr & _ & He & _).
  assert (Hall : Forall (fun x => errors_Is x ErrNotImplemented = false)
                        (failures_with p (reformatted ferr))).
  { unfold failures_with. rewrite !Forall_app.
    repeat split; try apply failure_unmatched.
    destruct ferr as [e |]; cbn; repeat constructor. }
  destruct (failures_with p (reformatted ferr)) as [| x l]; cbn in He;
    [discriminate He |].
  injection He as ->. exact Hall.
Qed.

Lemma newHost_lists_no_NotImplemented_witness :
  Forall (fun x => errors_Is x ErrNotImplemented = false)
         [Errno 31; errFQDN (errOther (Errno 1355));
          errorString "registry key not found"].
Proof.
  destruct (newHost_run scripted_patchy _ _ _ _
              (scripted_patchy_fails (Errno 1355) [] eq_refl))
    as (h & Hrun & _).
  exact (newHost_lists_no_NotImplemented scripted_patchy _ _ h _ Hrun).
Defined.

(** ** The memory record *)

(** X14. When the system reports no more available than total memory
    (both 64-bit), the subtraction of [Memory] does not wrap: [Used] and
    [Free] add up to [Total], and [Used] lies between 0 and [Total]; the
    same for the page file. *)
Theorem Memory_adds_up (p : Platform) (h h' : host) (w w' : World p)
    (m : HostMemoryInfo) :
  Memory p h w = ((Some m, None), h', w') ->
  0 <= Free m <= Total m ->
  Total m < 2 ^ 64 ->
  0 <= VirtualFree m <= VirtualTotal m ->
  VirtualTotal m < 2 ^ 64 ->
  Used m + Free m = Total m /\ 0 <= Used m <= Total m /\
  VirtualUsed m + VirtualFree m = VirtualTotal m /\
  0 <= VirtualUsed m <= VirtualTotal m.
Proof.
  unfold Memory.
  destruct (GlobalMemoryStatusEx p (sys w)) as [[mem [e |]] s];
    intros H; [discriminate H |].
  injection H as <- _ _. cbn [Total Used Free VirtualTotal VirtualUsed VirtualFree].
  intros Hp Hpt Hv Hvt. unfold uint64.
  rewrite !Z.mod_small by lia. lia.
Qed.

Lemma Memory_adds_up_witness :
  12 * GiB + 4 * GiB = 16 * GiB /\ 0 <= 12 * GiB <= 16 * GiB /\
  15 * GiB + 9 * GiB = 24 * GiB /\ 0 <= 15 * GiB <= 24 * GiB.
Proof.
  apply (Memory_adds_up scripted {| info := zeroHostInfo |}
           {| info := zeroHostInfo |} (start scripted []) (start scripted [])
           {| Total := 16 * GiB; Used := 12 * GiB; Free := 4 * GiB;
              Available := 4 * GiB; VirtualTotal := 24 * GiB;
              VirtualUsed := 15 * GiB; VirtualFree := 9 * GiB |}).
  - reflexivity.
  - vm_compute. split; discriminate.
  - reflexivity.
  - vm_compute. split; discriminate.
  - reflexivity.
Defined.

(** X15. When the system reports more available than total physical
    memory, [Memory] returns no error and no negative number: [Used]
    wraps to [2 ^ 64 - (Free - Total)], which is more than [Total]. *)
Theorem Memory_wraps (p : Platform) (h h' : host) (w w' : World p)
    (m : HostMemoryInfo) :
  Memory p h w = ((Some m, None), h', w') ->
  0 <= Total m < Free m ->
  Free m < 2 ^ 64 ->
  Used m = 2 ^ 64 - (Free m - Total m) /\ Total m < Used m < 2 ^ 64.
Proof.
  unfold Memory.
  destruct (GlobalMemoryStatusEx p (sys w)) as [[mem [e |]] s];
    intros H; [discriminate H |].
  injection H as <- _ _. cbn [Total Used Free].
  intros Hp Hf. unfold uint64.
  assert (Hm : (TotalPhys mem - AvailPhys mem) mod 2 ^ 64
               = TotalPhys mem - AvailPhys mem + 2 ^ 64).
  { symmetry. apply Z.mod_unique with (q := -1); lia. }
  rewrite Hm. lia.
Qed.

Lemma Memory_wraps_witness :
  let p := with_memory scripted
             {| TotalPhys := 4 * GiB; AvailPhys := 5 * GiB;
                TotalPageFile := 8 * GiB; AvailPageFile := 8 * GiB |} in
  exists m,
    fst (fst (Memory p {| info := zeroHostInfo |} (world p [] [])))
      = (Some m, None) /\
    Used m = 2 ^ 64 - (Free m - Total m) /\ Total m < Used m < 2 ^ 64.
Proof.
  intros p. eexists. split; [reflexivity |].
  apply (Memory_wraps p {| info := zeroHostInfo |} {| info := zeroHostInfo |}
           (world p [] []) (world p [] [])).
  - reflexivity.
  - vm_compute. split; [discriminate | reflexivity].
  - reflexivity.
Defined.

(** ** The reader on its own *)

Lemma addErr_fold (l : list (option error)) (r : reader) :
  errs (fold_left (fun r err => fst (addErr r err)) l r)
  = errs r ++ flat_map failure l.
Proof.
  revert r. induction l as [| err l IH]; intros r; cbn [fold_left flat_map].
  - now rewrite app_nil_r.
  - rewrite IH, addErr_spec. cbn [fst errs]. now rewrite app_assoc.
Qed.

(** X16. A fresh reader that is handed any sequence of errors through
    [addErr] gives through [Err] the combined error of those that are
    neither nil nor NotImplemented, in the order they came, and nil when
    there is none; and [addErr] reports a failure for every error that
    is not nil, also for one it does not record. *)
Theorem reader_collects (l : list (option error)) :
  Err (fold_left (fun r err => fst (addErr r err)) l {| errs := [] |})
    = combined (flat_map failure l) /\
  forall r err, snd (addErr r err) = true <-> err <> None.
Proof.
  split.
  - now rewrite Err_combined, addErr_fold.
  - intros r err. rewrite addErr_spec. cbn [snd].
    destruct err; split; congruence.
Qed.

(** ** NotImplemented, with the system call as it is *)

(** Every error the reader lists fails the test of [addErr]. *)
Lemma listed_unmatched (p : Platform) (ferr : option error) :
  Forall (fun x => errors_Is x ErrNotImplemented = false)
         (failures_with p (reformatted ferr)).
Proof.
  unfold failures_with. rewrite !Forall_app.
  repeat split; try apply failure_unmatched.
  destruct ferr as [e |]; cbn; repeat constructor.
Qed.

(** With a system call that returns only [syscall.Errno] errors, no
    error of [getComputerNameEx] matches NotImplemented: it is the
    internal-consistency error or a wrapped [Errno]. *)
Lemma errno_only_run (p : Platform) (name : Z) (w w' : World p)
    (s : string) (err : error) :
  errno_only p ->
  getComputerNameEx p name w = (Returns (s, Some err), w') ->
  errors_Is err ErrNotImplemented = false.
Proof.
  intros Hsys Hrun.
  destruct (run_last_call p name w)
    as (n & w1 & reply & rest & _ & Hinv & Hlast & _).
  rewrite Hrun in Hinv, Hlast. cbn [fst snd] in Hinv, Hlast.
  inversion Hlast as [| | e0 He0 _ _ | e0 He0 _]; subst.
  - reflexivity.
  - pose proof (invoke_reply p name n w1) as Hr.
    rewrite Hinv in Hr. cbn [fst] in Hr. rewrite Hr in He0.
    destruct (Hsys _ _ _ _ He0) as [code ->]. reflexivity.
Qed.

Lemma populated_zero {A : Type} (zero : A) (q : A * option error) :
  unimplemented (snd q) -> populated zero q = zero.
Proof. intros (x & Hx & _). unfold populated. now rewrite Hx. Qed.

(** C2. The system call returns only [syscall.Errno] errors, as its
    declaration has it.  Then in every run of [newHost] that returns: no
    error that matches NotImplemented is listed in the combined error;
    the field of every query that failed with such an error is at its
    zero value; the FQDN query, whose error is re-formatted before it is
    classified, never returns such an error, and leaves the FQDN empty
    when it fails; and when no query fails in another way, the error of
    [newHost] is nil. *)
Theorem newHost_suppresses_NotImplemented (p : Platform) (w w' : World p)
    (h : host) (e : option MultiError) :
  errno_only p ->
  newHost p w = (Returns (h, e), w') ->
  (forall m x,
     e = Some m -> errors_Is x ErrNotImplemented = true -> ~ In x (Errors m)) /\
  suppressed_fields p (info h) /\
  exists name ferr,
    getComputerNameEx p ComputerNamePhysicalDnsFullyQualified w
      = (Returns (name, ferr), w') /\
    (forall x, ferr = Some x ->
       errors_Is x ErrNotImplemented = false /\ FQDN (info h) = ""%string) /\
    (ferr = None -> Forall tolerated (plain_errors p) -> e = None).
Proof.
  intros Hsys Hrun.
  destruct (newHost_returns_inv _ _ _ _ _ Hrun)
    as (name & ferr & Hq & He & Hf & HF).
  split; [| split].
  - intros m x Hm Hx Hin.
    pose proof (listed_unmatched p ferr) as Hall.
    destruct (failures_with p (reformatted ferr)) as [| y l]; cbn in He;
      subst e; [discriminate Hm |].
    injection Hm as <-. cbn [Errors] in Hin.
    rewrite Forall_forall in Hall. specialize (Hall x Hin). congruence.
  - destruct Hf as (Ha & Hb & Hh & Hi & Hm & Hk & Ho & _ & _ & Hu).
    unfold suppressed_fields.
    rewrite Ha, Hb, Hh, Hi, Hm, Hk, Ho, Hu.
    split; [apply populated_zero |].
    split; [apply populated_zero |].
    split; [apply populated_zero |].
    split; [intros Hx; split; now apply populated_zero |].
    split; [apply populated_zero |].
    split; apply populated_zero.
  - exists name, ferr. split; [exact Hq | split].
    + intros x ->. split.
      * exact (errno_only_run _ _ _ _ _ _ Hsys Hq).
      * exact HF.
    + intros -> Hall. subst e.
      unfold plain_errors in Hall.
      rewrite !Forall_cons_iff, <- !failure_nil_iff in Hall.
      destruct Hall as (H1 & H2 & H3 & H4 & H5 & H6 & H7 & _).
      unfold failures_with. now rewrite H1, H2, H3, H4, H5, H6, H7.
Qed.

Lemma protocol_errno_only (text : list Z) :
  errno_only (partly_unimplemented unit (protocol_call text)).
Proof.
  unfold errno_only. intros name size s e. cbn [GetComputerNameEx partly_unimplemented].
  unfold protocol_call.
  destruct (size <? Z.of_nat (List.length text) + 1); cbn; intros He.
  - injection He as <-. now exists 234.
  - discriminate He.
Qed.

(** The kernel version and the machine id are not implemented, over a
    system that follows the protocol: no error, both fields empty. *)
Lemma newHost_suppresses_NotImplemented_witness :
  let p := partly_unimplemented unit (protocol_call (units_of "host1")) in
  exists h w',
    newHost p (world p tt []) = (Returns (h, None), w') /\
    suppressed_fields p (info h) /\
    KernelVersion (info h) = ""%string /\
    UniqueID (info h) = ""%string.
Proof.
  intros p.
  destruct (well_behaved_run p 7 6 (units_of "host1") (world p tt [])
              ltac:(lia)
              (protocol_well_behaved (units_of "host1") 7
                 (units_in_range "host1") ltac:(vm_compute; reflexivity)))
    as (w' & Hq & _).
  destruct (newHost_run p _ _ _ _ Hq) as (h & Hrun & _).
  exists h, w'. split; [exact Hrun |].
  destruct (newHost_suppresses_NotImplemented p _ _ h None
              (protocol_errno_only (units_of "host1")) Hrun)
    as (_ & Hs & _).
  split; [exact Hs |].
  destruct Hs as (_ & _ & _ & _ & Hk & _ & Hu).
  split.
  - apply Hk. eexists. split; reflexivity.
  - apply Hu. eexists. split; reflexivity.
Defined.
